(** * A verified model of [main.py], the caregiving post collector

    The program builds a read-only Reddit client from the process
    environment, searches six subreddits, keeps the posts that are not
    stickied and have some text, and writes them to a CSV file.

    The development follows the program: Python strings are sequences of
    code points, the record built for a post is a dictionary with ordered
    keys, and the effectful functions ([get_reddit_client], [fetch_posts],
    [main]) live in a small state-and-exception monad over a world holding
    the environment, the observable trace and the files. *)

From Stdlib Require Import ZArith NArith String Ascii List Floats.PrimFloat.
From Stdlib Require Import Decimal DecimalString.
From stdpp Require Import base option list gmap.

Local Open Scope N_scope.

(** ** Python strings *)

Module PyStr.

(** A [str] is a sequence of Unicode code points. *)
Abbreviation pystr := (list N).

(** An ASCII literal of the source as a [pystr]. *)
Definition lit (s : string) : pystr :=
  List.map N_of_ascii (list_ascii_of_string s).

(** [str.isspace] on one character: the code points CPython classifies
    as whitespace. *)
Definition isspace (c : N) : bool :=
  ((9 <=? c) && (c <=? 13)) || ((28 <=? c) && (c <=? 32))
  || (c =? 133) || (c =? 160) || (c =? 5760)
  || ((8192 <=? c) && (c <=? 8202))
  || (c =? 8232) || (c =? 8233) || (c =? 8239) || (c =? 8287)
  || (c =? 12288).

Fixpoint lstrip (s : pystr) : pystr :=
  match s with
  | [] => []
  | c :: s' => if isspace c then lstrip s' else s
  end.

Definition rstrip (s : pystr) : pystr := rev (lstrip (rev s)).

(** [s.strip()]: whitespace is dropped from the left end, then from the
    right end of what remains. *)
Definition strip (s : pystr) : pystr := rstrip (lstrip s).

(** Truthiness of a string: only the empty string is falsy. *)
Definition truthy (s : pystr) : bool :=
  match s with [] => false | _ :: _ => true end.

(** [x or ''] for an optional string [x]. *)
Definition or_empty (x : option pystr) : pystr :=
  match x with
  | Some s => if truthy s then s else []
  | None => []
  end.

(** [str(n)] for a natural number. *)
Definition str_of_nat (n : nat) : pystr :=
  lit (NilEmpty.string_of_uint (Nat.to_uint n)).

(** [sep.join(parts)]. *)
Fixpoint join (sep : pystr) (parts : list pystr) : pystr :=
  match parts with
  | [] => []
  | [p] => p
  | p :: rest => p ++ sep ++ join sep rest
  end.

Definition NL : pystr := [10].

End PyStr.

Import PyStr.

(** ** Items of the content source and the records built from them *)

(** A submission as [fetch_posts] sees it: the attributes it reads. *)
Record post : Type := Post {
  post_id : pystr;
  title : pystr;
  selftext : option pystr;
  score : Z;
  num_comments : Z;
  created_utc : float;
  permalink : pystr;
  stickied : bool
}.

(** The values stored in a record. *)
Inductive value : Type :=
| VStr (s : pystr)
| VNone
| VInt (z : Z)
| VFloat (f : float).

(** A Python [dict] with string keys: the items in insertion order.  The
    dictionaries of this program are built by one literal with distinct
    keys. *)
Definition dict : Type := list (pystr * value).

Fixpoint dict_get (k : pystr) (d : dict) : option value :=
  match d with
  | [] => None
  | (k', v) :: d' => if decide (k = k') then Some v else dict_get k d'
  end.

Definition keys (d : dict) : list pystr := List.map fst d.

Definition opt_str (x : option pystr) : value :=
  match x with Some s => VStr s | None => VNone end.

(** ** Constants of the collector *)

Definition SUBREDDITS : list pystr :=
  [ lit "eldercare"; lit "caregivers"; lit "agingparents";
    lit "dementia"; lit "nursing"; lit "premed" ].

Definition SEARCH_QUERY : pystr :=
  lit "care OR dementia OR help OR caregiver OR senior".

Definition POST_LIMIT_PER_SUB : N := 50.

(** [f"{post.title}\n\n{post.selftext or ''}".strip()] *)
Definition combined_text (p : post) : pystr :=
  strip (title p ++ NL ++ NL ++ or_empty (selftext p)).

(** The dictionary literal appended for an accepted post. *)
Definition make_record (sub_name : pystr) (p : post) (text : pystr) : dict :=
  [ (lit "subreddit", VStr sub_name);
    (lit "id", VStr (post_id p));
    (lit "title", VStr (title p));
    (lit "body", opt_str (selftext p));
    (lit "score", VInt (score p));
    (lit "num_comments", VInt (num_comments p));
    (lit "created_utc", VFloat (created_utc p));
    (lit "permalink", VStr (lit "https://www.reddit.com" ++ permalink p));
    (lit "text", VStr text) ].

(** One iteration of the inner loop: [None] stands for [continue]. *)
Definition process_post (sub_name : pystr) (p : post) : option dict :=
  if stickied p then None
  else
    let text := combined_text p in
    if negb (truthy text) then None
    else Some (make_record sub_name p text).

(** The body of the inner loop acting on the accumulator [results]. *)
Definition loop_body (sub_name : pystr) (results : list dict) (p : post)
  : list dict :=
  match process_post sub_name p with
  | None => results
  | Some r => results ++ [r]          (* results.append(...) *)
  end.

(** ** The world the program runs in *)

(** Exceptions: the [KeyError] of a dictionary lookup, and whatever the
    content source raises, named by its class. *)
Inductive exn : Type :=
| KeyError (key : pystr)
| SourceError (name : pystr).

(** How a computation ends: it returns, [sys.exit(code)] unwinds it, or
    an exception unwinds it. *)
Inductive result (A : Type) : Type :=
| Ret (a : A)
| Exit (code : Z)
| Raise (e : exn).
Arguments Ret {A} a.
Arguments Exit {A} code.
Arguments Raise {A} e.

(** The keyword arguments of [praw.Reddit(...)]. *)
Record credentials : Type := Credentials {
  client_id : pystr;
  client_secret : pystr;
  user_agent : pystr;
  username : pystr;
  password : pystr
}.

(** The client handle: its configuration and its [read_only] attribute. *)
Record Reddit : Type := MkReddit {
  config : credentials;
  read_only : bool
}.

Definition set_read_only (r : Reddit) (b : bool) : Reddit :=
  {| config := config r; read_only := b |}.

(** What iterating [subreddit.search(...)] produces: the items yielded,
    and the exception that ends the iteration if one is raised. *)
Record listing : Type := Listing {
  items : list post;
  failure : option exn
}.

(** A CSV file as rows of cells; the first row is the header. *)
Definition csv : Type := list (list value).

Inductive event : Type :=
| Getenv (name : pystr)
| Stdout (line : pystr)
| Stderr (line : pystr)
| NewClient (c : credentials)
| Search (r : Reddit) (sub_name query : pystr) (limit : N)
| ToCsv (path : pystr).

Record world : Type := World {
  environ : gmap pystr pystr;
  trace : list event;
  files : gmap pystr csv
}.

(** ** The monad of effects *)

Definition M (A : Type) : Type := world -> result A * world.

#[global] Instance M_ret : MRet M := fun A a w => (Ret a, w).

#[global] Instance M_bind : MBind M := fun A B f m w =>
  match m w with
  | (Ret a, w') => f a w'
  | (Exit c, w') => (Exit c, w')
  | (Raise e, w') => (Raise e, w')
  end.

Definition raise {A} (e : exn) : M A := fun w => (Raise e, w).

(** [sys.exit(code)] *)
Definition sys_exit {A} (code : Z) : M A := fun w => (Exit code, w).

Definition record_event (e : event) (w : world) : world :=
  {| environ := environ w; trace := trace w ++ [e]; files := files w |}.

(** Creating or overwriting a file. *)
Definition write_file (path : pystr) (content : csv) (w : world) : world :=
  {| environ := environ w; trace := trace w;
     files := <[path := content]> (files w) |}.

Definition log (e : event) : M unit := fun w => (Ret tt, record_event e w).

(** [try: m  except KeyError as e: handler(e)] *)
Definition try_except_KeyError {A} (m : M A) (handler : pystr -> M A) : M A :=
  fun w =>
    match m w with
    | (Raise (KeyError key), w') => handler key w'
    | other => other
    end.

(** [for x in xs: s = body(s, x)] with the loop state made explicit. *)
Fixpoint for_each {A S} (xs : list A) (body : S -> A -> M S) (s : S) : M S :=
  match xs with
  | [] => mret s
  | x :: xs' => s' ← body s x; for_each xs' body s'
  end.

(** Iterating a listing: the body runs on each yielded item, then the
    iteration raises if the listing fails. *)
Definition for_listing {S} (l : listing) (body : S -> post -> M S) (s : S)
  : M S :=
  s' ← for_each (items l) body s;
  match failure l with
  | None => mret s'
  | Some e => raise e
  end.

(** [os.environ[name]] *)
Definition environ_getitem (name : pystr) : M pystr := fun w =>
  match environ w !! name with
  | Some v => (Ret v, record_event (Getenv name) w)
  | None => (Raise (KeyError name), record_event (Getenv name) w)
  end.

(** [os.environ.get(name, dflt)] *)
Definition environ_get (name dflt : pystr) : M pystr := fun w =>
  (Ret (default dflt (environ w !! name)), record_event (Getenv name) w).

Definition print_out (line : pystr) : M unit := log (Stdout line).
Definition print_err (line : pystr) : M unit := log (Stderr line).

(** [str(e)] for [e = KeyError(key)] is [repr(key)]; for a key without
    quotes, backslashes or unprintable characters that is the key
    between single quotes. *)
Definition str_KeyError (key : pystr) : pystr := lit "'" ++ key ++ lit "'".

(** The exit status of the process running a computation as its main
    program: 0 on return, the code of [sys.exit], 1 on an uncaught
    exception. *)
Definition exit_status {A} (r : result A) : Z :=
  match r with
  | Ret _ => 0%Z
  | Exit code => code
  | Raise _ => 1%Z
  end.

(** ** The client factory *)

Definition REDDIT_CLIENT_ID : pystr := lit "REDDIT_CLIENT_ID".
Definition REDDIT_CLIENT_SECRET : pystr := lit "REDDIT_CLIENT_SECRET".
Definition REDDIT_USERNAME : pystr := lit "REDDIT_USERNAME".
Definition REDDIT_PASSWORD : pystr := lit "REDDIT_PASSWORD".
Definition REDDIT_USER_AGENT : pystr := lit "REDDIT_USER_AGENT".

Definition DEFAULT_USER_AGENT : pystr :=
  lit "caregiving-intent-miner (read-only research script)".

Definition OUTPUT_CSV : pystr := lit "caregiving_reddit_posts.csv".

Section Program.

(** The two things the PRAW library decides: the mode a freshly
    constructed client is in, and what a search yields. *)
Variable initial_read_only : credentials -> bool.
Variable search_results : Reddit -> pystr -> pystr -> N -> listing.

(** [praw.Reddit(client_id=..., ...)]: given its five keyword arguments as
    strings, the constructor returns a client; it makes no request. *)
Definition praw_Reddit (c : credentials) : M Reddit := fun w =>
  (Ret {| config := c; read_only := initial_read_only c |},
   record_event (NewClient c) w).

Definition read_credentials : M credentials :=
  client_id ← environ_getitem REDDIT_CLIENT_ID;
  client_secret ← environ_getitem REDDIT_CLIENT_SECRET;
  username ← environ_getitem REDDIT_USERNAME;
  password ← environ_getitem REDDIT_PASSWORD;
  user_agent ← environ_get REDDIT_USER_AGENT DEFAULT_USER_AGENT;
  mret {| client_id := client_id; client_secret := client_secret;
          user_agent := user_agent; username := username;
          password := password |}.

Definition missing_variable (key : pystr) : M credentials :=
  print_err (lit "Missing environment variable: " ++ str_KeyError key) ;;
  sys_exit 1.

Definition get_reddit_client : M Reddit :=
  c ← try_except_KeyError read_credentials missing_variable;
  reddit ← praw_Reddit c;
  (* Safety: enforce read-only mode *)
  let reddit := set_read_only reddit true in
  mret reddit.

(** ** The collector *)

(** [reddit.subreddit(sub_name).search(query, limit=limit)] *)
Definition subreddit_search (reddit : Reddit) (sub_name query : pystr)
    (limit : N) : M listing := fun w =>
  (Ret (search_results reddit sub_name query limit),
   record_event (Search reddit sub_name query limit) w).

Definition fetch_channel (reddit : Reddit) (results : list dict)
    (sub_name : pystr) : M (list dict) :=
  print_out (lit "Fetching posts from r/" ++ sub_name ++ lit " ...") ;;
  l ← subreddit_search reddit sub_name SEARCH_QUERY POST_LIMIT_PER_SUB;
  for_listing l (fun results p => mret (loop_body sub_name results p)) results.

Definition fetch_posts (reddit : Reddit) : M (list dict) :=
  for_each SUBREDDITS (fetch_channel reddit) [].

(** ** The exporter *)

Record frame : Type := Frame {
  columns : list pystr;
  data : list (list value)
}.

(** The columns a list of dictionaries gives a frame: the keys in the
    order they first appear. *)
Definition add_keys (cols : list pystr) (d : dict) : list pystr :=
  fold_left (fun acc k => if bool_decide (k ∈ acc) then acc else acc ++ [k])
            (keys d) cols.

(** A cell of a row: the value under the column's key, NaN when the
    dictionary lacks it. *)
Definition cell (d : dict) (col : pystr) : value :=
  default (VFloat nan) (dict_get col d).

(** [pd.DataFrame(posts)] for a list of dictionaries. *)
Definition DataFrame (posts : list dict) : frame :=
  let cols := fold_left add_keys posts [] in
  {| columns := cols; data := List.map (fun d => List.map (cell d) cols) posts |}.

(** The file [df.to_csv(path, index=False)] produces: the header row,
    then one row per row of the frame.  The write itself succeeds. *)
Definition csv_of_frame (df : frame) : csv :=
  List.map VStr (columns df) :: data df.

Definition to_csv (df : frame) (path : pystr) : M unit := fun w =>
  (Ret tt, write_file path (csv_of_frame df) (record_event (ToCsv path) w)).

(** ** The entry point *)

Definition main : M unit :=
  reddit ← get_reddit_client;
  posts ← fetch_posts reddit;
  match posts with
  | [] =>
      (* if not posts: ...; return *)
      print_out (lit "No posts collected. Try adjusting SEARCH_QUERY or limits.")
  | _ :: _ =>
      let df := DataFrame posts in
      to_csv df OUTPUT_CSV ;;
      print_out (lit "Saved " ++ str_of_nat (length (data df))
                 ++ lit " posts to " ++ OUTPUT_CSV)
  end.

End Program.

(** ** Vocabulary of the statements *)

(** The world after some more events were observed. *)
Definition add_events (es : list event) (w : world) : world :=
  {| environ := environ w; trace := trace w ++ es; files := files w |}.

(** The variables [get_reddit_client] looks up with [os.environ[...]],
    in the order of the lookups, and all the variables it looks up. *)
Definition required_vars : list pystr :=
  [REDDIT_CLIENT_ID; REDDIT_CLIENT_SECRET; REDDIT_USERNAME; REDDIT_PASSWORD].

Definition all_vars : list pystr := required_vars ++ [REDDIT_USER_AGENT].

(** The first variable of [ks] that the environment lacks. *)
Fixpoint first_missing (env : gmap pystr pystr) (ks : list pystr)
  : option pystr :=
  match ks with
  | [] => None
  | k :: ks' =>
      match env !! k with
      | None => Some k
      | Some _ => first_missing env ks'
      end
  end.

(** The variables of [ks] up to and including [m]. *)
Fixpoint reads_until (m : pystr) (ks : list pystr) : list pystr :=
  match ks with
  | [] => []
  | k :: ks' => k :: (if decide (k = m) then [] else reads_until m ks')
  end.

(** The keyword arguments an environment determines. *)
Definition expected_credentials (env : gmap pystr pystr) : credentials :=
  {| client_id := default [] (env !! REDDIT_CLIENT_ID);
     client_secret := default [] (env !! REDDIT_CLIENT_SECRET);
     user_agent := default DEFAULT_USER_AGENT (env !! REDDIT_USER_AGENT);
     username := default [] (env !! REDDIT_USERNAME);
     password := default [] (env !! REDDIT_PASSWORD) |}.

Definition missing_message (m : pystr) : pystr :=
  lit "Missing environment variable: '" ++ m ++ lit "'".

(** Projections of a trace. *)
Definition getenvs (t : list event) : list pystr :=
  omap (fun e => match e with Getenv k => Some k | _ => None end) t.

Definition searches (t : list event) : list (pystr * pystr * N) :=
  omap (fun e => match e with
                 | Search _ sub_name q n => Some (sub_name, q, n)
                 | _ => None
                 end) t.

Definition writes (t : list event) : list pystr :=
  omap (fun e => match e with ToCsv path => Some path | _ => None end) t.

Definition clients (t : list event) : list credentials :=
  omap (fun e => match e with NewClient c => Some c | _ => None end) t.

Definition stderr_lines (t : list event) : list pystr :=
  omap (fun e => match e with Stderr l => Some l | _ => None end) t.

Definition stdout_lines (t : list event) : list pystr :=
  omap (fun e => match e with Stdout l => Some l | _ => None end) t.

(** The events [fetch_posts] may produce with the handle [r]. *)
Definition collector_event (r : Reddit) (e : event) : Prop :=
  match e with
  | Stdout _ => True
  | Search r' _ _ _ => r' = r
  | _ => False
  end.

(** The events of one channel. *)
Definition channel_events (r : Reddit) (sub_name : pystr) : list event :=
  [ Stdout (lit "Fetching posts from r/" ++ sub_name ++ lit " ...");
    Search r sub_name SEARCH_QUERY POST_LIMIT_PER_SUB ].

(** The records one channel contributes when its search does not fail. *)
Definition channel_records (search_results : Reddit -> pystr -> pystr -> N -> listing)
    (r : Reddit) (sub_name : pystr) : list dict :=
  omap (process_post sub_name)
       (items (search_results r sub_name SEARCH_QUERY POST_LIMIT_PER_SUB)).

(** The outcome and the events of the outer loop over the channels
    [subs], started with the accumulator [results]. *)
Fixpoint collect (search_results : Reddit -> pystr -> pystr -> N -> listing)
    (r : Reddit) (subs : list pystr) (results : list dict)
  : result (list dict) * list event :=
  match subs with
  | [] => (Ret results, [])
  | sub_name :: subs' =>
      match failure (search_results r sub_name SEARCH_QUERY POST_LIMIT_PER_SUB) with
      | Some e => (Raise e, channel_events r sub_name)
      | None =>
          let out :=
            collect search_results r subs'
                    (results ++ channel_records search_results r sub_name) in
          (out.1, channel_events r sub_name ++ out.2)
      end
  end.

(** The two messages of [main]. *)
Definition NO_POSTS_MESSAGE : pystr :=
  lit "No posts collected. Try adjusting SEARCH_QUERY or limits.".

Definition saved_message (n : nat) : pystr :=
  lit "Saved " ++ str_of_nat n ++ lit " posts to caregiving_reddit_posts.csv".

(** A dictionary built by the literal of [fetch_posts]. *)
Definition is_record (d : dict) : Prop :=
  exists sub_name p text, d = make_record sub_name p text.

(** The handle the factory returns in an environment with every
    required variable, and the events of building it. *)
Definition the_client (env : gmap pystr pystr) : Reddit :=
  {| config := expected_credentials env; read_only := true |}.

Definition factory_events (env : gmap pystr pystr) : list event :=
  List.map Getenv all_vars ++ [NewClient (expected_credentials env)].

(** The searches of a run over all the channels. *)
Definition all_searches : list (pystr * pystr * N) :=
  List.map (fun sub_name => (sub_name, SEARCH_QUERY, POST_LIMIT_PER_SUB))
           SUBREDDITS.

(** The keyword argument of [praw.Reddit] a variable provides. *)
Definition credential (name : pystr) (c : credentials) : option pystr :=
  if decide (name = REDDIT_CLIENT_ID) then Some (client_id c)
  else if decide (name = REDDIT_CLIENT_SECRET) then Some (client_secret c)
  else if decide (name = REDDIT_USERNAME) then Some (username c)
  else if decide (name = REDDIT_PASSWORD) then Some (password c)
  else if decide (name = REDDIT_USER_AGENT) then Some (user_agent c)
  else None.

(** A variable is required when the factory exits with code 1 in every
    environment that lacks it. *)
Definition fatal_when_absent (initial_read_only : credentials -> bool)
    (name : pystr) : Prop :=
  forall w, environ w !! name = None ->
            (get_reddit_client initial_read_only w).1 = Exit 1.

(** The header of the output file. *)
Definition HEADER : list pystr :=
  [ lit "subreddit"; lit "id"; lit "title"; lit "body"; lit "score";
    lit "num_comments"; lit "created_utc"; lit "permalink"; lit "text" ].

(** ** Inputs used in examples *)

(** The item of the scenario: title "x", no body, not stickied. *)
Definition bodyless_item : post :=
  {| post_id := lit "t3_1"; title := lit "x"; selftext := None;
     score := 1; num_comments := 0; created_utc := 0%float;
     permalink := lit "/r/eldercare/comments/1/x/"; stickied := false |}.

(** The same item, stickied. *)
Definition stickied_bodyless_item : post :=
  {| post_id := lit "t3_1"; title := lit "x"; selftext := None;
     score := 1; num_comments := 0; created_utc := 0%float;
     permalink := lit "/r/eldercare/comments/1/x/"; stickied := true |}.


(** Environments and worlds. *)
Definition env_credentials : gmap pystr pystr :=
  <[REDDIT_CLIENT_ID := lit "abc"]>
    (<[REDDIT_CLIENT_SECRET := lit "s3cret"]>
       (<[REDDIT_USERNAME := lit "carer"]>
          (<[REDDIT_PASSWORD := lit "pw"]> ∅))).

(** The environment above without the password. *)
Definition env_no_password : gmap pystr pystr :=
  <[REDDIT_CLIENT_ID := lit "abc"]>
    (<[REDDIT_CLIENT_SECRET := lit "s3cret"]>
       (<[REDDIT_USERNAME := lit "carer"]> ∅)).

(** Every variable set to the empty string. *)
Definition env_empty_strings : gmap pystr pystr :=
  <[REDDIT_CLIENT_ID := []]>
    (<[REDDIT_CLIENT_SECRET := []]>
       (<[REDDIT_USERNAME := []]>
          (<[REDDIT_PASSWORD := []]>
             (<[REDDIT_USER_AGENT := []]> ∅)))).

Definition fresh_world (env : gmap pystr pystr) : world :=
  {| environ := env; trace := []; files := ∅ |}.

(** A client library whose new clients may write. *)
Definition writable_at_first (c : credentials) : bool := false.

(** Items and search results. *)
Definition post_help : post :=
  {| post_id := lit "t3_2"; title := lit "Need help";
     selftext := Some (lit "for my mom");
     score := 12; num_comments := 3; created_utc := 1700000000%float;
     permalink := lit "/r/dementia/comments/2/need_help/"; stickied := false |}.

Definition post_notice : post :=
  {| post_id := lit "t3_3"; title := lit "Mod notice"; selftext := Some [];
     score := 1; num_comments := 0; created_utc := 1700000001%float;
     permalink := lit "/r/dementia/comments/3/mod_notice/"; stickied := true |}.

(** Only r/dementia has results. *)
Definition search_dementia (r : Reddit) (sub_name query : pystr) (limit : N)
  : listing :=
  if decide (sub_name = lit "dementia")
  then {| items := [post_help; post_notice; bodyless_item]; failure := None |}
  else {| items := []; failure := None |}.

(** r/eldercare has a result, then the search of r/caregivers yields one
    item and fails. *)
Definition search_failing (r : Reddit) (sub_name query : pystr) (limit : N)
  : listing :=
  if decide (sub_name = lit "eldercare")
  then {| items := [post_help]; failure := None |}
  else if decide (sub_name = lit "caregivers")
  then {| items := [post_help];
          failure := Some (SourceError (lit "TooManyRequests")) |}
  else {| items := []; failure := None |}.

(** No channel has results that pass the filters. *)
Definition search_nothing (r : Reddit) (sub_name query : pystr) (limit : N)
  : listing :=
  {| items := [post_notice]; failure := None |}.

(** ** Vocabulary of the further properties *)

(** A string of whitespace only. *)
Definition all_space (s : pystr) : bool := forallb isspace s.

(** The untrimmed text of an item: [f"{post.title}\n\n{post.selftext or ''}"]. *)
Definition raw_text (p : post) : pystr :=
  title p ++ NL ++ NL ++ or_empty (selftext p).

(** The filter of the inner loop as a test on an item. *)
Definition accepted (p : post) : bool :=
  negb (stickied p) && truthy (combined_text p).

(** The progress notice of a channel. *)
Definition notice (sub_name : pystr) : pystr :=
  lit "Fetching posts from r/" ++ sub_name ++ lit " ...".

(** Every channel returns the same item. *)
Definition search_overlap (r : Reddit) (sub_name query : pystr) (limit : N)
  : listing :=
  {| items := [post_help]; failure := None |}.

(** A world that already has some other file. *)
Definition world_with_notes : world :=
  {| environ := env_credentials; trace := [];
     files := {[ lit "notes.csv" := [[VStr (lit "kept")]] ]} |}.

(** No variable is set. *)
Definition world_without_variables : world := fresh_world ∅.


(** The records of the run over [search_dementia]. *)
Definition dementia_records : list dict :=
  [ make_record (lit "dementia") post_help (lit "Need help" ++ [10; 10] ++ lit "for my mom");
    make_record (lit "dementia") bodyless_item (lit "x") ].
(** * Properties *)

(** ** Stripping *)

Module PyStrFacts.

Lemma lstrip_snoc_space (s : pystr) (c : N) :
  isspace c = true ->
  lstrip (s ++ [c]) = match lstrip s with [] => [] | _ :: _ => lstrip s ++ [c] end.
Proof.
  intros Hc. induction s as [|a s IH]; simpl.
  - now rewrite Hc.
  - destruct (isspace a); [exact IH | reflexivity].
Qed.

Lemma rstrip_snoc_space (s : pystr) (c : N) :
  isspace c = true -> rstrip (s ++ [c]) = rstrip s.
Proof.
  intros Hc. unfold rstrip. rewrite rev_app_distr. simpl. now rewrite Hc.
Qed.

Lemma strip_snoc_space (s : pystr) (c : N) :
  isspace c = true -> strip (s ++ [c]) = strip s.
Proof.
  intros Hc. unfold strip. rewrite (lstrip_snoc_space s c Hc).
  destruct (lstrip s) as [|a t] eqn:E; [reflexivity|].
  now apply rstrip_snoc_space.
Qed.

Lemma strip_app_spaces (s ws : pystr) :
  forallb isspace ws = true -> strip (s ++ ws) = strip s.
Proof.
  revert s. induction ws as [|c ws IH]; intros s Hws.
  - now rewrite app_nil_r.
  - simpl in Hws. apply andb_prop in Hws as [Hc Hws].
    change (c :: ws) with ([c] ++ ws). rewrite app_assoc, IH by exact Hws.
    now apply strip_snoc_space.
Qed.

Lemma or_empty_default (x : option pystr) : or_empty x = default [] x.
Proof. destruct x as [[|c s]|]; reflexivity. Qed.

End PyStrFacts.

Import PyStrFacts.

(** ** The inner loop *)

Lemma combined_text_eq (p : post) :
  combined_text p = strip (title p ++ [10; 10] ++ default [] (selftext p)).
Proof. unfold combined_text. now rewrite or_empty_default. Qed.

Lemma combined_text_no_body (p : post) :
  selftext p = None -> combined_text p = strip (title p).
Proof.
  intros H. unfold combined_text. rewrite H. simpl.
  change (title p ++ NL ++ NL ++ []) with (title p ++ [10; 10]).
  now apply strip_app_spaces.
Qed.

Lemma process_post_Some (sub_name : pystr) (p : post) (r : dict) :
  process_post sub_name p = Some r <->
  stickied p = false /\ combined_text p <> [] /\
  r = make_record sub_name p (combined_text p).
Proof.
  unfold process_post. destruct (stickied p).
  - split; [discriminate | intros [? _]; discriminate].
  - cbv zeta. destruct (combined_text p) as [|c t] eqn:E; simpl.
    + split; [discriminate | intros (_ & ? & _); congruence].
    + split.
      * intros [= <-]. repeat split; congruence.
      * intros (_ & _ & ->). reflexivity.
Qed.

(** The inner loop appends, in order, the records of the accepted items
    and has no effect on the world. *)
Lemma inner_loop_run (sub_name : pystr) (ps : list post) (results : list dict)
    (w : world) :
  for_each ps (fun results p => mret (loop_body sub_name results p)) results w
  = (Ret (results ++ omap (process_post sub_name) ps), w).
Proof.
  revert results. induction ps as [|p ps IH]; intros results; simpl.
  - now rewrite app_nil_r.
  - unfold mbind, M_bind, mret, M_ret at 1. rewrite IH. unfold loop_body.
    destruct (process_post sub_name p) as [r|]; [|reflexivity].
    now rewrite <- app_assoc.
Qed.

(** C1: an item yields a record exactly when it is not stickied and the
    stripped concatenation of its title, two newlines and its body (the
    empty string when the body is absent) is non-empty; the "text" field
    of the record is that stripped concatenation; and iterating the items
    of a channel appends exactly these records, in order. *)
Theorem C1_record_iff_unpinned_and_text (sub_name : pystr) (p : post) :
  let text := strip (title p ++ [10; 10] ++ default [] (selftext p)) in
  (is_Some (process_post sub_name p) <-> stickied p = false /\ text <> [])
  /\ (forall r, process_post sub_name p = Some r ->
                dict_get (lit "text") r = Some (VStr text))
  /\ (forall ps results w,
        for_each ps (fun results p => mret (loop_body sub_name results p))
                 results w
        = (Ret (results ++ omap (process_post sub_name) ps), w)).
Proof.
  cbv zeta. rewrite <- combined_text_eq. split; [|split].
  - split.
    + intros [r Hr]. apply process_post_Some in Hr. tauto.
    + intros [Hs Ht]. eexists. apply process_post_Some. eauto.
  - intros r Hr. apply process_post_Some in Hr as (_ & _ & ->). reflexivity.
  - intros. apply inner_loop_run.
Qed.

(** ** An item without a body *)

(** C7 as stated fails: it is not the case that every item without a body
    and with a non-blank title yields a record whose "body" field is the
    empty string.  The item titled "x" yields a record whose "body" field
    is [None], and the same item stickied yields no record at all. *)
Lemma C7_body_field_is_not_empty_string :
  ~ (forall sub_name p,
       selftext p = None -> strip (title p) <> [] ->
       exists r, process_post sub_name p = Some r
                 /\ dict_get (lit "body") r = Some (VStr [])
                 /\ dict_get (lit "text") r = Some (VStr (strip (title p))))
  /\ (exists r, process_post (lit "eldercare") bodyless_item = Some r
                /\ dict_get (lit "body") r = Some VNone
                /\ dict_get (lit "text") r = Some (VStr (lit "x")))
  /\ selftext stickied_bodyless_item = None
  /\ strip (title stickied_bodyless_item) <> []
  /\ process_post (lit "eldercare") stickied_bodyless_item = None.
Proof.
  split; [|split; [|split; [|split]]].
  - intros H.
    destruct (H (lit "eldercare") bodyless_item) as (r & Hr & Hb & _).
    + reflexivity.
    + vm_compute. discriminate.
    + vm_compute in Hr. injection Hr as <-. vm_compute in Hb. discriminate.
  - eexists. split; [reflexivity|]. split; reflexivity.
  - reflexivity.
  - vm_compute. discriminate.
  - reflexivity.
Qed.

(** C7, amended: an item that is not stickied, has no body and has a
    title that is non-empty once stripped yields a record whose "body"
    field is [None], the absent body carried over as it is, and whose
    "text" field is the stripped title. *)
Theorem C7_bodyless_item_record (sub_name : pystr) (p : post) :
  stickied p = false ->
  selftext p = None ->
  strip (title p) <> [] ->
  exists r, process_post sub_name p = Some r
            /\ dict_get (lit "body") r = Some VNone
            /\ dict_get (lit "text") r = Some (VStr (strip (title p))).
Proof.
  intros Hs Hb Ht. rewrite <- (combined_text_no_body p Hb) in *.
  exists (make_record sub_name p (combined_text p)). split.
  - apply process_post_Some. auto.
  - split; [|reflexivity].
    change (dict_get (lit "body") (make_record sub_name p (combined_text p)))
      with (Some (opt_str (selftext p))).
    now rewrite Hb.
Qed.

Lemma C7_bodyless_item_record_witness :
  stickied bodyless_item = false
  /\ selftext bodyless_item = None
  /\ strip (title bodyless_item) <> []
  /\ exists r, process_post (lit "eldercare") bodyless_item = Some r
               /\ dict_get (lit "body") r = Some VNone
               /\ dict_get (lit "text") r
                  = Some (VStr (strip (title bodyless_item))).
Proof.
  assert (Ht : strip (title bodyless_item) <> []) by (vm_compute; discriminate).
  split; [reflexivity|]. split; [reflexivity|]. split; [exact Ht|].
  exact (C7_bodyless_item_record (lit "eldercare") bodyless_item
           eq_refl eq_refl Ht).
Defined.

(** ** The client factory *)

Lemma add_events_nil (w : world) : add_events [] w = w.
Proof. destruct w. unfold add_events. simpl. now rewrite app_nil_r. Qed.

Lemma add_events_app (es1 es2 : list event) (w : world) :
  add_events es2 (add_events es1 w) = add_events (es1 ++ es2) w.
Proof. unfold add_events. simpl. now rewrite app_assoc. Qed.

Lemma record_event_add (e : event) (w : world) :
  record_event e w = add_events [e] w.
Proof. reflexivity. Qed.

Lemma environ_add_events (es : list event) (w : world) :
  environ (add_events es w) = environ w.
Proof. reflexivity. Qed.

Lemma trace_add_events (es : list event) (w : world) :
  trace (add_events es w) = trace w ++ es.
Proof. reflexivity. Qed.

Section ClientFactory.

Variable initial_read_only : credentials -> bool.

Local Abbreviation get_client := (get_reddit_client initial_read_only).

(** What the factory does, in full: it stops at the first required
    variable the environment lacks, or builds the client from the
    environment's values and switches it to read-only. *)
Lemma get_reddit_client_run (w : world) :
  get_client w =
  match first_missing (environ w) required_vars with
  | Some m =>
      (Exit 1,
       add_events (List.map Getenv (reads_until m required_vars)
                   ++ [Stderr (missing_message m)]) w)
  | None =>
      (Ret {| config := expected_credentials (environ w); read_only := true |},
       add_events (List.map Getenv all_vars
                   ++ [NewClient (expected_credentials (environ w))]) w)
  end.
Proof.
  unfold get_reddit_client, read_credentials, try_except_KeyError,
    missing_variable, praw_Reddit, environ_getitem, environ_get, print_err,
    sys_exit, log, expected_credentials.
  unfold mbind, M_bind, mret, M_ret. cbn [first_missing required_vars].
  cbv beta.
  destruct (environ w !! REDDIT_CLIENT_ID) as [v1|] eqn:E1; cbv beta iota;
    rewrite ?record_event_add, ?environ_add_events, ?add_events_app;
    [|reflexivity].
  destruct (environ w !! REDDIT_CLIENT_SECRET) as [v2|] eqn:E2; cbv beta iota;
    rewrite ?record_event_add, ?environ_add_events, ?add_events_app;
    [|reflexivity].
  destruct (environ w !! REDDIT_USERNAME) as [v3|] eqn:E3; cbv beta iota;
    rewrite ?record_event_add, ?environ_add_events, ?add_events_app;
    [|reflexivity].
  destruct (environ w !! REDDIT_PASSWORD) as [v4|] eqn:E4; cbv beta iota;
    rewrite ?record_event_add, ?environ_add_events, ?add_events_app;
    reflexivity.
Qed.

End ClientFactory.

(** ** The collector *)

Section Collector.

Variable initial_read_only : credentials -> bool.
Variable search_results : Reddit -> pystr -> pystr -> N -> listing.

Local Abbreviation listing_of r sub_name :=
  (search_results r sub_name SEARCH_QUERY POST_LIMIT_PER_SUB).
Local Abbreviation fetch_channel' := (fetch_channel search_results).
Local Abbreviation fetch_posts' := (fetch_posts search_results).
Local Abbreviation collect' := (collect search_results).
Local Abbreviation records_of := (channel_records search_results).

Lemma fetch_channel_run (r : Reddit) (results : list dict) (sub_name : pystr)
    (w : world) :
  fetch_channel' r results sub_name w =
  (match failure (listing_of r sub_name) with
   | None => Ret (results ++ records_of r sub_name)
   | Some e => Raise e
   end,
   add_events (channel_events r sub_name) w).
Proof.
  unfold fetch_channel, for_listing, subreddit_search, print_out, log, raise.
  unfold mbind, M_bind at 1 2. cbv beta iota.
  unfold mbind, M_bind. rewrite inner_loop_run.
  rewrite !record_event_add, add_events_app.
  unfold mret, M_ret, channel_records.
  destruct (failure (listing_of r sub_name)); reflexivity.
Qed.

Lemma fetch_loop_run (r : Reddit) (subs : list pystr) (results : list dict)
    (w : world) :
  for_each subs (fetch_channel' r) results w =
  ((collect' r subs results).1, add_events (collect' r subs results).2 w).
Proof.
  revert results w. induction subs as [|sub_name subs IH]; intros results w.
  - simpl. now rewrite add_events_nil.
  - cbn [for_each collect]. unfold mbind, M_bind at 1.
    rewrite fetch_channel_run.
    destruct (failure (listing_of r sub_name)) as [e|]; [reflexivity|].
    rewrite IH. cbn [fst snd]. now rewrite add_events_app.
Qed.

Lemma fetch_posts_run (r : Reddit) (w : world) :
  fetch_posts' r w =
  ((collect' r SUBREDDITS []).1, add_events (collect' r SUBREDDITS []).2 w).
Proof. apply fetch_loop_run. Qed.

(** When no channel fails, the loop returns the records of the channels
    in channel order, and its events are those of each channel in turn. *)
Lemma collect_ok (r : Reddit) (subs : list pystr) (results : list dict) :
  (forall sub_name, sub_name ∈ subs -> failure (listing_of r sub_name) = None) ->
  collect' r subs results =
  (Ret (results ++ concat (List.map (records_of r) subs)),
   concat (List.map (channel_events r) subs)).
Proof.
  revert results. induction subs as [|sub_name subs IH]; intros results H.
  - simpl. now rewrite app_nil_r.
  - cbn [collect]. rewrite (H sub_name) by apply list_elem_of_here.
    rewrite IH by (intros s Hs; apply H; now apply list_elem_of_further).
    cbn [fst snd List.map concat]. now rewrite <- app_assoc.
Qed.

(** When some channel fails, the loop raises the error of a failing
    channel. *)
Lemma collect_fail (r : Reddit) (subs : list pystr) (results : list dict)
    (sub_name : pystr) (e : exn) :
  sub_name ∈ subs -> failure (listing_of r sub_name) = Some e ->
  exists sub0 e0, sub0 ∈ subs /\ failure (listing_of r sub0) = Some e0
                  /\ (collect' r subs results).1 = Raise e0.
Proof.
  intros Hin Hf. revert results.
  induction subs as [|s subs IH]; intros results.
  - now apply elem_of_nil in Hin.
  - cbn [collect]. destruct (failure (listing_of r s)) as [e1|] eqn:E1.
    + exists s, e1. split; [apply list_elem_of_here|]. split; [exact E1|reflexivity].
    + apply elem_of_cons in Hin as [->|Hin]; [congruence|].
      destruct (IH Hin (results ++ records_of r s)) as (s0 & e0 & H0 & H1 & H2).
      exists s0, e0. split; [now apply list_elem_of_further|]. split; [exact H1|exact H2].
Qed.

(** A loop that returns has visited every channel without failure. *)
Lemma collect_Ret (r : Reddit) (subs : list pystr) (results posts : list dict) :
  (collect' r subs results).1 = Ret posts ->
  forall sub_name, sub_name ∈ subs -> failure (listing_of r sub_name) = None.
Proof.
  revert results. induction subs as [|s subs IH]; intros results H sub_name Hin.
  - now apply elem_of_nil in Hin.
  - cbn [collect] in H. destruct (failure (listing_of r s)) as [e1|] eqn:E1;
      [discriminate|].
    apply elem_of_cons in Hin as [->|Hin]; [exact E1|].
    exact (IH _ H _ Hin).
Qed.

(** The loop only prints and searches, always with the handle it got. *)
Lemma collect_events (r : Reddit) (subs : list pystr) (results : list dict) :
  Forall (collector_event r) (collect' r subs results).2.
Proof.
  revert results. induction subs as [|s subs IH]; intros results; cbn [collect].
  - constructor.
  - assert (Hc : Forall (collector_event r) (channel_events r s))
      by (repeat constructor).
    destruct (failure (listing_of r s)); [exact Hc|].
    cbn [snd]. apply Forall_app. split; [exact Hc|apply IH].
Qed.

End Collector.

(** ** The exporter *)

Lemma add_keys_first (d : dict) : is_record d -> add_keys [] d = HEADER.
Proof. intros (s & p & t & ->). vm_compute. reflexivity. Qed.

Lemma add_keys_again (d : dict) : is_record d -> add_keys HEADER d = HEADER.
Proof. intros (s & p & t & ->). vm_compute. reflexivity. Qed.

Lemma add_keys_all (posts : list dict) :
  Forall is_record posts -> fold_left add_keys posts HEADER = HEADER.
Proof.
  induction 1 as [|d posts Hd _ IH]; [reflexivity|].
  simpl. now rewrite add_keys_again.
Qed.

Lemma row_of_record (d : dict) :
  is_record d -> List.map (cell d) HEADER = List.map snd d.
Proof. intros (s & p & t & ->). reflexivity. Qed.

(** The file made from a non-empty list of records: the header, then for
    each record, in order, the row of its nine values. *)
Lemma csv_of_records (posts : list dict) :
  posts <> [] -> Forall is_record posts ->
  csv_of_frame (DataFrame posts)
  = List.map VStr HEADER :: List.map (List.map snd) posts.
Proof.
  intros Hne Hall. destruct posts as [|d posts]; [congruence|].
  unfold csv_of_frame, DataFrame. cbn [columns data fold_left].
  inversion Hall as [|? ? Hd Hrest]; subst.
  rewrite (add_keys_first d Hd), (add_keys_all posts Hrest).
  f_equal. apply map_ext_in. intros d' Hin.
  apply row_of_record. rewrite Forall_forall in Hall. apply Hall.
  now apply list_elem_of_In.
Qed.

Lemma process_post_is_record (sub_name : pystr) (ps : list post) :
  Forall is_record (omap (process_post sub_name) ps).
Proof.
  apply Forall_forall. intros d Hd.
  apply list_elem_of_omap in Hd as (p & _ & Hp).
  apply process_post_Some in Hp as (_ & _ & ->).
  now exists sub_name, p, (combined_text p).
Qed.

(** ** The entry point *)

Section Main.

Variable initial_read_only : credentials -> bool.
Variable search_results : Reddit -> pystr -> pystr -> N -> listing.

Local Abbreviation listing_of r sub_name :=
  (search_results r sub_name SEARCH_QUERY POST_LIMIT_PER_SUB).
Local Abbreviation get_client := (get_reddit_client initial_read_only).
Local Abbreviation fetch_posts' := (fetch_posts search_results).
Local Abbreviation collect' := (collect search_results).
Local Abbreviation records_of := (channel_records search_results).
Local Abbreviation main' := (main initial_read_only search_results).

Lemma collected_are_records (r : Reddit) (posts : list dict) :
  (collect' r SUBREDDITS []).1 = Ret posts -> Forall is_record posts.
Proof.
  intros H. pose proof (collect_Ret search_results r _ _ _ H) as Hok.
  rewrite (collect_ok search_results r _ [] Hok) in H.
  injection H as <-.
  repeat (apply Forall_app; split); try apply process_post_is_record.
  constructor.
Qed.

(** What [main] does, in terms of the factory and the loop. *)
Lemma main_run (w : world) :
  main' w =
  match get_client w with
  | (Ret r, w1) =>
      let out := collect' r SUBREDDITS [] in
      let w2 := add_events out.2 w1 in
      match out.1 with
      | Ret [] => (Ret tt, add_events [Stdout NO_POSTS_MESSAGE] w2)
      | Ret (d :: ds) =>
          (Ret tt,
           add_events [Stdout (saved_message (length (d :: ds)))]
             (write_file OUTPUT_CSV (csv_of_frame (DataFrame (d :: ds)))
                (add_events [ToCsv OUTPUT_CSV] w2)))
      | Exit code => (Exit code, w2)
      | Raise e => (Raise e, w2)
      end
  | (Exit code, w1) => (Exit code, w1)
  | (Raise e, w1) => (Raise e, w1)
  end.
Proof.
  unfold main. unfold mbind, M_bind at 1.
  destruct (get_client w) as [[r|code|e] w1]; try reflexivity.
  unfold mbind, M_bind at 1. rewrite fetch_posts_run. cbv zeta.
  destruct ((collect' r SUBREDDITS []).1) as [[|d ds]|code|e]; try reflexivity.
  unfold to_csv, print_out, log, mbind, M_bind. cbv beta iota.
  rewrite !record_event_add. do 3 f_equal.
  unfold saved_message, DataFrame. cbn [data]. now rewrite length_map.
Qed.

End Main.

(** ** Projections of traces *)

Lemma getenvs_map_Getenv (ks : list pystr) : getenvs (List.map Getenv ks) = ks.
Proof. induction ks as [|k ks IH]; [reflexivity|]. simpl. now f_equal. Qed.

Lemma other_map_Getenv {A} (f : event -> option A) (ks : list pystr) :
  (forall k, f (Getenv k) = None) -> omap f (List.map Getenv ks) = [].
Proof.
  intros Hf. induction ks as [|k ks IH]; [reflexivity|].
  simpl. rewrite Hf. exact IH.
Qed.

Lemma collector_event_omap {A} (f : event -> option A) (r : Reddit)
    (es : list event) :
  (forall l, f (Stdout l) = None) ->
  (forall r' s q n, f (Search r' s q n) = None) ->
  Forall (collector_event r) es -> omap f es = [].
Proof.
  intros H1 H2. induction 1 as [|e es He _ IH]; [reflexivity|].
  destruct e; simpl in He; try contradiction; simpl.
  - rewrite H1. exact IH.
  - rewrite H2. exact IH.
Qed.

Lemma collector_event_search (r r' : Reddit) (es : list event)
    (sub_name q : pystr) (n : N) :
  Forall (collector_event r) es -> Search r' sub_name q n ∈ es -> r' = r.
Proof.
  intros Hall Hin. rewrite Forall_forall in Hall. exact (Hall _ Hin).
Qed.

(** ** Missing variables *)

Lemma first_missing_Some (env : gmap pystr pystr) (ks : list pystr) (m : pystr) :
  first_missing env ks = Some m -> m ∈ ks /\ env !! m = None.
Proof.
  induction ks as [|k ks IH]; simpl; [discriminate|].
  destruct (env !! k) eqn:E.
  - intros H. destruct (IH H). split; [now apply list_elem_of_further|assumption].
  - intros [= <-]. split; [apply list_elem_of_here|exact E].
Qed.

Lemma first_missing_None (env : gmap pystr pystr) (ks : list pystr) :
  first_missing env ks = None <-> forall k, k ∈ ks -> is_Some (env !! k).
Proof.
  induction ks as [|k ks IH]; simpl.
  - split; [intros _ k Hk; now apply elem_of_nil in Hk|reflexivity].
  - destruct (env !! k) eqn:E.
    + rewrite IH. split.
      * intros H k' Hk'. apply elem_of_cons in Hk' as [->|Hk']; [now rewrite E|auto].
      * intros H k' Hk'. apply H. now apply list_elem_of_further.
    + split; [discriminate|]. intros H.
      destruct (H k (list_elem_of_here _ _)) as [v Hv]. congruence.
Qed.

Lemma first_missing_exists (env : gmap pystr pystr) (ks : list pystr) (k : pystr) :
  k ∈ ks -> env !! k = None ->
  exists m, first_missing env ks = Some m
            /\ ((forall k', k' ∈ ks -> k' <> k -> is_Some (env !! k')) -> m = k).
Proof.
  intros Hin Hk. destruct (first_missing env ks) as [m|] eqn:E.
  - exists m. split; [reflexivity|]. intros Hothers.
    apply first_missing_Some in E as [Hm Hnone].
    destruct (decide (m = k)) as [|Hne]; [assumption|].
    destruct (Hothers m Hm Hne) as [v Hv]. congruence.
  - rewrite first_missing_None in E. destruct (E k Hin) as [v Hv]. congruence.
Qed.

(** ** The claims about whole runs *)

Section Runs.

Variable initial_read_only : credentials -> bool.
Variable search_results : Reddit -> pystr -> pystr -> N -> listing.

Local Abbreviation listing_of r sub_name :=
  (search_results r sub_name SEARCH_QUERY POST_LIMIT_PER_SUB).
Local Abbreviation get_client := (get_reddit_client initial_read_only).
Local Abbreviation fetch_posts' := (fetch_posts search_results).
Local Abbreviation collect' := (collect search_results).
Local Abbreviation records_of := (channel_records search_results).
Local Abbreviation main' := (main initial_read_only search_results).

(** A run in which a required variable is missing. *)
Lemma main_missing (w : world) (m : pystr) :
  first_missing (environ w) required_vars = Some m ->
  get_client w
  = (Exit 1, add_events (List.map Getenv (reads_until m required_vars)
                         ++ [Stderr (missing_message m)]) w)
  /\ main' w
     = (Exit 1, add_events (List.map Getenv (reads_until m required_vars)
                            ++ [Stderr (missing_message m)]) w).
Proof.
  intros H. rewrite main_run, get_reddit_client_run, H. split; reflexivity.
Qed.

(** C2: when a required credential variable is absent from the
    environment, whatever the other variables are, the factory and the
    whole run end with exit code 1; one line naming a missing required
    variable goes to standard error (the absent variable itself when the
    other required ones are present); no client is constructed, nothing
    is searched and no file is written. *)
Theorem C2_missing_credential_exits_1 (w : world) (k : pystr) :
  k ∈ required_vars -> environ w !! k = None ->
  (get_client w).1 = Exit 1
  /\ (main' w).1 = Exit 1
  /\ exit_status (main' w).1 = 1%Z
  /\ files (main' w).2 = files w
  /\ exists m es,
       m ∈ required_vars /\ environ w !! m = None
       /\ ((forall k', k' ∈ required_vars -> k' <> k ->
                       is_Some (environ w !! k')) -> m = k)
       /\ trace (main' w).2 = trace w ++ es
       /\ stderr_lines es = [missing_message m]
       /\ clients es = [] /\ searches es = [] /\ writes es = [].
Proof.
  intros Hin Hk.
  destruct (first_missing_exists _ _ _ Hin Hk) as (m & Hm & Hsame).
  destruct (main_missing w m Hm) as [Hc Hmain].
  rewrite Hmain, Hc. cbn [fst snd exit_status].
  split; [reflexivity|]. split; [reflexivity|]. split; [reflexivity|].
  split; [reflexivity|].
  apply first_missing_Some in Hm as [Hm1 Hm2].
  exists m, (List.map Getenv (reads_until m required_vars)
             ++ [Stderr (missing_message m)]).
  repeat split; try assumption.
  - unfold stderr_lines. rewrite omap_app, other_map_Getenv by reflexivity.
    reflexivity.
  - unfold clients. rewrite omap_app, other_map_Getenv by reflexivity.
    reflexivity.
  - unfold searches. rewrite omap_app, other_map_Getenv by reflexivity.
    reflexivity.
  - unfold writes. rewrite omap_app, other_map_Getenv by reflexivity.
    reflexivity.
Qed.

Lemma get_client_Ret (w : world) (r : Reddit) :
  (get_client w).1 = Ret r ->
  first_missing (environ w) required_vars = None /\ r = the_client (environ w).
Proof.
  rewrite get_reddit_client_run.
  destruct (first_missing (environ w) required_vars); [discriminate|].
  intros [= <-]. split; reflexivity.
Qed.

(** A run in which every required variable is present. *)
Lemma main_with_client (w : world) :
  first_missing (environ w) required_vars = None ->
  let r := the_client (environ w) in
  let out := collect' r SUBREDDITS [] in
  let es := factory_events (environ w) ++ out.2 in
  get_client w = (Ret r, add_events (factory_events (environ w)) w)
  /\ main' w =
     match out.1 with
     | Ret [] => (Ret tt, add_events (es ++ [Stdout NO_POSTS_MESSAGE]) w)
     | Ret (d :: ds) =>
         (Ret tt,
          write_file OUTPUT_CSV (csv_of_frame (DataFrame (d :: ds)))
            (add_events (es ++ [ToCsv OUTPUT_CSV;
                                Stdout (saved_message (length (d :: ds)))]) w))
     | Exit code => (Exit code, add_events es w)
     | Raise e => (Raise e, add_events es w)
     end.
Proof.
  intros H. cbv zeta. rewrite main_run, get_reddit_client_run, H.
  split; [reflexivity|]. cbv zeta. fold (the_client (environ w)).
  fold (factory_events (environ w)).
  destruct ((collect' (the_client (environ w)) SUBREDDITS []).1)
    as [[|d ds]|code|e]; rewrite ?add_events_app; try reflexivity.
  unfold write_file, add_events. cbn [environ trace files].
  now rewrite <- !app_assoc.
Qed.

Lemma writes_collect (r : Reddit) (subs : list pystr) (results : list dict) :
  writes (collect' r subs results).2 = [].
Proof.
  apply (collector_event_omap _ r); [reflexivity|reflexivity|].
  apply collect_events.
Qed.

Lemma searches_collect_Ret (r : Reddit) (posts : list dict) :
  (collect' r SUBREDDITS []).1 = Ret posts ->
  searches (collect' r SUBREDDITS []).2 = all_searches
  /\ posts = concat (List.map (records_of r) SUBREDDITS).
Proof.
  intros H. pose proof (collect_Ret search_results r _ _ _ H) as Hok.
  rewrite (collect_ok search_results r _ [] Hok) in *. cbn [fst snd] in *.
  split; [reflexivity|]. now injection H as <-.
Qed.

(** Every run either writes nothing and leaves the files as they were, or
    returns after searching all six channels and writing the one output
    file. *)
Lemma main_all_or_nothing (w : world) :
  exists es, trace (main' w).2 = trace w ++ es
    /\ ((writes es = [] /\ files (main' w).2 = files w)
        \/ (writes es = [OUTPUT_CSV] /\ (main' w).1 = Ret tt
            /\ searches es = all_searches
            /\ exists content,
                 files (main' w).2 = <[OUTPUT_CSV := content]> (files w))).
Proof.
  destruct (first_missing (environ w) required_vars) as [m|] eqn:E.
  - destruct (main_missing w m E) as [_ ->]. eexists. split; [reflexivity|].
    left. split; [|reflexivity]. unfold writes.
    rewrite omap_app, other_map_Getenv by reflexivity. reflexivity.
  - destruct (main_with_client w E) as [_ Hmain]. cbv zeta in Hmain.
    rewrite Hmain. clear Hmain. set (r := the_client (environ w)).
    pose proof (writes_collect r SUBREDDITS []) as Hw.
    destruct ((collect' r SUBREDDITS []).1) as [[|d ds]|code|e] eqn:Eo;
      (eexists; split; [reflexivity|]); cbn [fst snd].
    + left. split; [|reflexivity]. unfold writes in *.
      rewrite !omap_app, Hw. reflexivity.
    + right. split; [|split; [reflexivity|split]].
      * unfold writes in *. rewrite !omap_app, Hw. reflexivity.
      * destruct (searches_collect_Ret r _ Eo) as [Hs _].
        unfold searches in *. rewrite !omap_app, Hs. reflexivity.
      * eexists. reflexivity.
    + left. split; [|reflexivity]. unfold writes in *.
      rewrite !omap_app, Hw. reflexivity.
    + left. split; [|reflexivity]. unfold writes in *.
      rewrite !omap_app, Hw. reflexivity.
Qed.

(** C3: when the search of some channel raises, nothing catches the
    error: the run ends with the exception of a failing channel, its exit
    status is not 0, no file is written and the files are as before;
    and in general a run writes either nothing or, after searching all
    six channels, the one output file. *)
Theorem C3_source_error_aborts_run (w : world) (r : Reddit)
    (sub_name : pystr) (e : exn) :
  (get_client w).1 = Ret r ->
  sub_name ∈ SUBREDDITS ->
  failure (listing_of r sub_name) = Some e ->
  (exists sub0 e0, sub0 ∈ SUBREDDITS
                   /\ failure (listing_of r sub0) = Some e0
                   /\ (main' w).1 = Raise e0)
  /\ exit_status (main' w).1 <> 0%Z
  /\ files (main' w).2 = files w
  /\ (exists es, trace (main' w).2 = trace w ++ es /\ writes es = [])
  /\ (forall w0, exists es, trace (main' w0).2 = trace w0 ++ es
        /\ ((writes es = [] /\ files (main' w0).2 = files w0)
            \/ (writes es = [OUTPUT_CSV] /\ (main' w0).1 = Ret tt
                /\ searches es = all_searches
                /\ exists content,
                     files (main' w0).2
                     = <[OUTPUT_CSV := content]> (files w0)))).
Proof.
  intros Hc Hin Hf. apply get_client_Ret in Hc as [Hnone ->].
  destruct (main_with_client w Hnone) as [_ Hmain]. cbv zeta in Hmain.
  destruct (collect_fail search_results _ SUBREDDITS [] _ _ Hin Hf)
    as (sub0 & e0 & H0 & H1 & H2).
  rewrite H2 in Hmain. rewrite Hmain. cbn [fst snd exit_status].
  split; [exists sub0, e0; auto|]. split; [discriminate|].
  split; [reflexivity|]. split; [|apply main_all_or_nothing].
  eexists. split; [reflexivity|]. unfold writes.
  rewrite omap_app. fold (writes (collect' (the_client (environ w)) SUBREDDITS []).2).
  now rewrite writes_collect.
Qed.

Lemma fetch_after_client (w : world) (r : Reddit) :
  (get_client w).1 = Ret r ->
  first_missing (environ w) required_vars = None
  /\ r = the_client (environ w)
  /\ (fetch_posts' r (get_client w).2).1 = (collect' r SUBREDDITS []).1
  /\ (fetch_posts' r (get_client w).2).2
     = add_events (factory_events (environ w) ++ (collect' r SUBREDDITS []).2) w.
Proof.
  intros Hc. apply get_client_Ret in Hc as [Hnone ->].
  destruct (main_with_client w Hnone) as [-> _]. cbn [fst snd].
  rewrite fetch_posts_run, add_events_app. auto.
Qed.

(** C4: when the collected sequence of records is not empty, the file
    written at the output path is the header row subreddit, id, title,
    body, score, num_comments, created_utc, permalink, text, followed by
    exactly one row per record, in order, holding the record's values in
    the order of the columns, and nothing after them. *)
Theorem C4_output_file_rows (w : world) (r : Reddit) (posts : list dict) :
  (get_client w).1 = Ret r ->
  (fetch_posts' r (get_client w).2).1 = Ret posts ->
  posts <> [] ->
  exists rows,
    files (main' w).2 !! OUTPUT_CSV
    = Some (List.map VStr
              [ lit "subreddit"; lit "id"; lit "title"; lit "body";
                lit "score"; lit "num_comments"; lit "created_utc";
                lit "permalink"; lit "text" ] :: rows)
    /\ rows = List.map (List.map snd) posts
    /\ length rows = length posts
    /\ (forall d, d ∈ posts ->
                  keys d = [ lit "subreddit"; lit "id"; lit "title";
                             lit "body"; lit "score"; lit "num_comments";
                             lit "created_utc"; lit "permalink"; lit "text" ]).
Proof.
  intros Hc Hf Hne.
  destruct (fetch_after_client w r Hc) as (Hnone & -> & Hout & _).
  rewrite Hout in Hf. destruct (main_with_client w Hnone) as [_ Hmain].
  cbv zeta in Hmain. rewrite Hf in Hmain.
  pose proof (collected_are_records search_results _ _ Hf) as Hrec.
  destruct posts as [|d ds]; [congruence|]. rewrite Hmain. cbn [snd].
  exists (List.map (List.map snd) (d :: ds)).
  split; [|split; [reflexivity|split]].
  - unfold write_file. cbn [files]. rewrite lookup_insert_eq.
    now rewrite csv_of_records.
  - apply length_map.
  - intros d' Hd'. rewrite Forall_forall in Hrec.
    destruct (Hrec d' Hd') as (s & p & t & ->). reflexivity.
Qed.

(** C5: the collector visits the six channels eldercare, caregivers,
    agingparents, dementia, nursing, premed in that order, searching each
    with the query that joins the terms care, dementia, help, caregiver,
    senior with OR and with the limit 50; when no search fails it returns
    the accepted records channel by channel in that order and, within a
    channel, in the order the search yielded the items. *)
Theorem C5_six_channels_in_order (r : Reddit) (w : world) :
  (forall sub_name, sub_name ∈ SUBREDDITS ->
                    failure (listing_of r sub_name) = None) ->
  let channels := [ lit "eldercare"; lit "caregivers"; lit "agingparents";
                    lit "dementia"; lit "nursing"; lit "premed" ] in
  let query := join (lit " OR ") [ lit "care"; lit "dementia"; lit "help";
                                   lit "caregiver"; lit "senior" ] in
  (fetch_posts' r w).1
  = Ret (concat (List.map
                   (fun sub_name =>
                      omap (process_post sub_name)
                           (items (search_results r sub_name query 50)))
                   channels))
  /\ exists es, trace (fetch_posts' r w).2 = trace w ++ es
       /\ searches es
          = List.map (fun sub_name => (sub_name, query, 50)) channels.
Proof.
  intros Hok. cbv zeta. rewrite fetch_posts_run.
  rewrite (collect_ok search_results r _ [] Hok). cbn [fst snd].
  split; [reflexivity|]. eexists. split; reflexivity.
Qed.

(** C6: when the collected sequence of records is empty, the run prints
    the message that no posts were collected, writes no file, leaves the
    files as they were, and ends with exit status 0. *)
Theorem C6_empty_result_exits_0 (w : world) (r : Reddit) :
  (get_client w).1 = Ret r ->
  (fetch_posts' r (get_client w).2).1 = Ret [] ->
  (main' w).1 = Ret tt
  /\ exit_status (main' w).1 = 0%Z
  /\ files (main' w).2 = files w
  /\ trace (main' w).2
     = trace (fetch_posts' r (get_client w).2).2 ++ [Stdout NO_POSTS_MESSAGE]
  /\ exists es, trace (main' w).2 = trace w ++ es /\ writes es = [].
Proof.
  intros Hc Hf.
  destruct (fetch_after_client w r Hc) as (Hnone & -> & Hout & Hw2).
  rewrite Hout in Hf. rewrite Hw2. clear Hout Hw2.
  destruct (main_with_client w Hnone) as [_ Hmain].
  cbv zeta in Hmain. rewrite Hf in Hmain. rewrite Hmain.
  cbn [fst snd exit_status]. split; [reflexivity|]. split; [reflexivity|].
  split; [reflexivity|]. rewrite !trace_add_events.
  split; [now rewrite <- !app_assoc|].
  eexists. split; [reflexivity|]. unfold writes. rewrite !omap_app.
  fold (writes (collect' (the_client (environ w)) SUBREDDITS []).2).
  now rewrite writes_collect.
Qed.

(** C9: the handle the factory returns has [read_only] set, whatever mode
    the library gave the new client, and every search of the run is made
    with that handle. *)
Theorem C9_client_is_read_only (w : world) (r : Reddit) :
  (get_client w).1 = Ret r ->
  read_only r = true
  /\ exists es, trace (main' w).2 = trace w ++ es
       /\ forall r' sub_name q n,
            Search r' sub_name q n ∈ es -> r' = r /\ read_only r' = true.
Proof.
  intros Hc. apply get_client_Ret in Hc as [Hnone ->].
  split; [reflexivity|].
  destruct (main_with_client w Hnone) as [_ Hmain]. cbv zeta in Hmain.
  set (r := the_client (environ w)) in *.
  pose proof (collect_events search_results r SUBREDDITS []) as Hev.
  assert (Hin : forall es2 r' s q n,
             (forall r'' s' q' n', Search r'' s' q' n' ∉ es2) ->
             Search r' s q n ∈ factory_events (environ w)
                              ++ (collect' r SUBREDDITS []).2 ++ es2 ->
             r' = r /\ read_only r' = true).
  { intros es2 r' s q n Hes2 H.
    apply elem_of_app in H as [H|H].
    - exfalso. unfold factory_events in H.
      apply elem_of_app in H as [H|H].
      + apply list_elem_of_In, in_map_iff in H as (k & Hk & _). discriminate.
      + apply list_elem_of_singleton in H. discriminate.
    - apply elem_of_app in H as [H|H]; [|now apply Hes2 in H].
      assert (r' = r) as -> by exact (collector_event_search _ _ _ _ _ _ Hev H).
      split; reflexivity. }
  rewrite Hmain.
  destruct ((collect' r SUBREDDITS []).1) as [[|d ds]|code|e];
    (eexists; split; [cbn [snd]; try rewrite <- app_assoc; reflexivity|]);
    intros r' s q n H.
  - apply (Hin [Stdout NO_POSTS_MESSAGE] r' s q n); [|exact H].
    intros ? ? ? ? H'. apply list_elem_of_singleton in H'. discriminate.
  - apply (Hin [ToCsv OUTPUT_CSV; Stdout (saved_message (length (d :: ds)))]
               r' s q n); [|exact H].
    intros ? ? ? ? H'. repeat (apply elem_of_cons in H' as [H'|H']; [discriminate|]).
    now apply elem_of_nil in H'.
  - apply (Hin [] r' s q n); [|now rewrite app_nil_r].
    intros ? ? ? ? H'. now apply elem_of_nil in H'.
  - apply (Hin [] r' s q n); [|now rewrite app_nil_r].
    intros ? ? ? ? H'. now apply elem_of_nil in H'.
Qed.

(** C8, amended: the factory reads four required values, the client id,
    the client secret, the user name and the password, and one optional
    value, the user agent, which has a fixed default.  It exits with code
    1 exactly when one of the four is absent and returns a client exactly
    when all four are present; the client holds the four values and the
    user agent of the environment or else the default; a successful run
    looks up these five variables in this order and a failing one a
    prefix of them. *)
Theorem C8_four_required_one_optional (w : world) :
  let required := [ REDDIT_CLIENT_ID; REDDIT_CLIENT_SECRET;
                    REDDIT_USERNAME; REDDIT_PASSWORD ] in
  let looked_up := required ++ [ REDDIT_USER_AGENT ] in
  ((get_client w).1 = Exit 1
   <-> exists k, k ∈ required /\ environ w !! k = None)
  /\ ((exists r, (get_client w).1 = Ret r)
      <-> forall k, k ∈ required -> is_Some (environ w !! k))
  /\ (forall r, (get_client w).1 = Ret r ->
        environ w !! REDDIT_CLIENT_ID = Some (client_id (config r))
        /\ environ w !! REDDIT_CLIENT_SECRET = Some (client_secret (config r))
        /\ environ w !! REDDIT_USERNAME = Some (username (config r))
        /\ environ w !! REDDIT_PASSWORD = Some (password (config r))
        /\ user_agent (config r)
           = default DEFAULT_USER_AGENT (environ w !! REDDIT_USER_AGENT)
        /\ exists es, trace (get_client w).2 = trace w ++ es
                      /\ getenvs es = looked_up)
  /\ exists es n, trace (get_client w).2 = trace w ++ es
                  /\ getenvs es = take n looked_up.
Proof.
  cbv zeta. change [REDDIT_CLIENT_ID; REDDIT_CLIENT_SECRET; REDDIT_USERNAME;
                    REDDIT_PASSWORD] with required_vars.
  fold all_vars. rewrite get_reddit_client_run.
  destruct (first_missing (environ w) required_vars) as [m|] eqn:E; cbn [fst snd].
  - pose proof (first_missing_Some _ _ _ E) as [Hm Hnone].
    split; [|split; [|split]].
    + split; [intros _; now exists m|reflexivity].
    + split; [intros [r Hr]; discriminate|].
      intros H. destruct (H m Hm) as [v Hv]. congruence.
    + intros r Hr. discriminate.
    + exists (List.map Getenv (reads_until m required_vars)
              ++ [Stderr (missing_message m)]).
      assert (Hg : forall l x, getenvs (List.map Getenv l ++ [Stderr x]) = l).
      { intros l x. unfold getenvs. rewrite omap_app.
        fold (getenvs (List.map Getenv l)). rewrite getenvs_map_Getenv.
        apply app_nil_r. }
      rewrite Hg. clear Hg.
      unfold required_vars in Hm.
      repeat (apply elem_of_cons in Hm as [->|Hm]);
        [exists 1%nat|exists 2%nat|exists 3%nat|exists 4%nat|
         now apply elem_of_nil in Hm]; (split; reflexivity).
  - pose proof (proj1 (first_missing_None _ _) E) as Hall.
    split; [|split; [|split]].
    + split; [discriminate|]. intros (k & Hk & Hnone).
      destruct (Hall k Hk) as [v Hv]. congruence.
    + split; [intros _; exact Hall|intros _; eexists; reflexivity].
    + intros r [= <-]. cbn [config expected_credentials client_id client_secret
                            username password user_agent].
      assert (Hp : forall k : pystr, k ∈ required_vars ->
                     environ w !! k = Some (default [] (environ w !! k))).
      { intros k Hk. destruct (Hall k Hk) as [v Hv]. now rewrite Hv. }
      unfold required_vars in Hp.
      repeat (split; [apply Hp; repeat constructor|]).
      split; [reflexivity|].
      eexists. split; [reflexivity|]. unfold getenvs. rewrite omap_app.
      fold (getenvs (List.map Getenv all_vars)). rewrite getenvs_map_Getenv.
      apply app_nil_r.
    + eexists _, 5%nat. split; [reflexivity|]. unfold getenvs. rewrite omap_app.
      fold (getenvs (List.map Getenv all_vars)). rewrite getenvs_map_Getenv.
      apply app_nil_r.
Qed.

(** C10: a variable that is set to the empty string is present.  When
    one of the five variables is the empty string and the other required
    ones are present, the factory returns a client, so it does not exit,
    and the client is built with the empty string for that variable; for
    the user agent this means the default is used only when the variable
    is absent and any value it has, the empty string included, replaces
    the default. *)
Theorem C10_empty_string_is_present (w : world) (k : pystr) :
  k ∈ all_vars ->
  environ w !! k = Some [] ->
  (forall k', k' ∈ required_vars -> k' <> k -> is_Some (environ w !! k')) ->
  exists r,
    (get_client w).1 = Ret r
    /\ (get_client w).1 <> Exit 1
    /\ credential k (config r) = Some []
    /\ clients (trace (get_client w).2) = clients (trace w) ++ [config r]
    /\ (environ w !! REDDIT_USER_AGENT = None ->
        user_agent (config r) = DEFAULT_USER_AGENT)
    /\ (forall v, environ w !! REDDIT_USER_AGENT = Some v ->
                  user_agent (config r) = v).
Proof.
  intros Hk Hempty Hothers.
  assert (Hall : forall k', k' ∈ required_vars -> is_Some (environ w !! k')).
  { intros k' Hk'. destruct (decide (k' = k)) as [->|Hne]; [|auto].
    rewrite Hempty. now eexists. }
  apply first_missing_None in Hall. rewrite get_reddit_client_run, Hall.
  cbn [fst snd]. eexists. split; [reflexivity|]. split; [discriminate|].
  cbn [config]. split; [|split; [|split]].
  - unfold all_vars, required_vars in Hk. cbn [app] in Hk.
    unfold expected_credentials.
    repeat (apply elem_of_cons in Hk as [->|Hk]);
      [| | | | | now apply elem_of_nil in Hk]; rewrite Hempty; reflexivity.
  - rewrite trace_add_events. unfold clients. rewrite !omap_app.
    rewrite other_map_Getenv by reflexivity. reflexivity.
  - intros Hua. unfold expected_credentials. cbn [user_agent]. now rewrite Hua.
  - intros v Hua. unfold expected_credentials. cbn [user_agent]. now rewrite Hua.
Qed.

End Runs.

(** ** The claims at concrete inputs *)

Lemma env_credentials_lookup (k : pystr) :
  k ∉ required_vars -> env_credentials !! k = None.
Proof.
  intros Hk. unfold env_credentials.
  rewrite !lookup_insert_ne; [apply lookup_empty| | | |];
    intros <-; apply Hk; unfold required_vars; repeat constructor.
Qed.

(** C8 as stated fails: there are no five distinct variables whose
    absence makes the factory exit.  With the four credentials set and no
    user agent, the factory returns a client with the default user
    agent. *)
Lemma C8_no_fifth_required_value :
  ~ (exists ks : list pystr,
       NoDup ks /\ length ks = 5%nat
       /\ forall k, k ∈ ks -> fatal_when_absent writable_at_first k)
  /\ environ (fresh_world env_credentials) !! REDDIT_USER_AGENT = None
  /\ exists r,
       (get_reddit_client writable_at_first (fresh_world env_credentials)).1
       = Ret r
       /\ user_agent (config r) = DEFAULT_USER_AGENT.
Proof.
  split; [|split; [reflexivity|eexists; split; vm_compute; reflexivity]].
  intros (ks & Hnd & Hlen & Hfatal).
  assert (Hsub : forall k, k ∈ ks -> k ∈ required_vars).
  { intros k Hk. destruct (decide (k ∈ required_vars)) as [|Hout]; [assumption|].
    exfalso. specialize (Hfatal k Hk (fresh_world env_credentials)).
    cbn [fresh_world environ] in Hfatal.
    specialize (Hfatal (env_credentials_lookup k Hout)).
    vm_compute in Hfatal. discriminate. }
  pose proof (submseteq_length _ _ (NoDup_submseteq _ _ Hnd Hsub)) as Hle.
  rewrite Hlen in Hle. vm_compute in Hle. lia.
Qed.

Lemma C2_missing_credential_exits_1_witness :
  REDDIT_PASSWORD ∈ required_vars
  /\ environ (fresh_world env_no_password) !! REDDIT_PASSWORD = None
  /\ (main writable_at_first search_dementia (fresh_world env_no_password)).1
     = Exit 1.
Proof.
  assert (H1 : REDDIT_PASSWORD ∈ required_vars)
    by (unfold required_vars; repeat constructor).
  assert (H2 : environ (fresh_world env_no_password) !! REDDIT_PASSWORD = None)
    by reflexivity.
  split; [exact H1|]. split; [exact H2|].
  exact (proj1 (proj2 (C2_missing_credential_exits_1
                         writable_at_first search_dementia
                         (fresh_world env_no_password) REDDIT_PASSWORD H1 H2))).
Defined.

Lemma C3_source_error_aborts_run_witness :
  let w := fresh_world env_credentials in
  let r := the_client env_credentials in
  (get_reddit_client writable_at_first w).1 = Ret r
  /\ lit "caregivers" ∈ SUBREDDITS
  /\ failure (search_failing r (lit "caregivers") SEARCH_QUERY POST_LIMIT_PER_SUB)
     = Some (SourceError (lit "TooManyRequests"))
  /\ files (main writable_at_first search_failing w).2 = files w.
Proof.
  cbv zeta.
  assert (H1 : (get_reddit_client writable_at_first
                  (fresh_world env_credentials)).1
               = Ret (the_client env_credentials))
    by (vm_compute; reflexivity).
  assert (H2 : lit "caregivers" ∈ SUBREDDITS)
    by (unfold SUBREDDITS; repeat constructor).
  assert (H3 : failure (search_failing (the_client env_credentials)
                          (lit "caregivers") SEARCH_QUERY POST_LIMIT_PER_SUB)
               = Some (SourceError (lit "TooManyRequests")))
    by reflexivity.
  split; [exact H1|]. split; [exact H2|]. split; [exact H3|].
  exact (proj1 (proj2 (proj2 (C3_source_error_aborts_run
                                writable_at_first search_failing
                                (fresh_world env_credentials) _ _ _
                                H1 H2 H3)))).
Defined.

Lemma C4_output_file_rows_witness :
  let w := fresh_world env_credentials in
  let r := the_client env_credentials in
  let posts := channel_records search_dementia r (lit "dementia") in
  (get_reddit_client writable_at_first w).1 = Ret r
  /\ (fetch_posts search_dementia r (get_reddit_client writable_at_first w).2).1
     = Ret posts
  /\ posts <> []
  /\ exists rows,
       files (main writable_at_first search_dementia w).2 !! OUTPUT_CSV
       = Some (List.map VStr HEADER :: rows)
       /\ length rows = 2%nat.
Proof.
  cbv zeta.
  assert (H1 : (get_reddit_client writable_at_first
                  (fresh_world env_credentials)).1
               = Ret (the_client env_credentials))
    by (vm_compute; reflexivity).
  assert (H2 : (fetch_posts search_dementia (the_client env_credentials)
                  (get_reddit_client writable_at_first
                     (fresh_world env_credentials)).2).1
               = Ret (channel_records search_dementia
                        (the_client env_credentials) (lit "dementia")))
    by (vm_compute; reflexivity).
  assert (H3 : channel_records search_dementia (the_client env_credentials)
                 (lit "dementia") <> [])
    by (vm_compute; discriminate).
  split; [exact H1|]. split; [exact H2|]. split; [exact H3|].
  destruct (C4_output_file_rows writable_at_first search_dementia
              (fresh_world env_credentials) _ _ H1 H2 H3)
    as (rows & Hfile & _ & Hlen & _).
  exists rows. split; [exact Hfile|exact Hlen].
Defined.

Lemma C5_six_channels_in_order_witness :
  let r := the_client env_credentials in
  let w := fresh_world env_credentials in
  (forall sub_name, sub_name ∈ SUBREDDITS ->
     failure (search_dementia r sub_name SEARCH_QUERY POST_LIMIT_PER_SUB) = None)
  /\ (fetch_posts search_dementia r w).1
     = Ret (omap (process_post (lit "dementia"))
                 [post_help; post_notice; bodyless_item]).
Proof.
  cbv zeta.
  assert (H : forall sub_name, sub_name ∈ SUBREDDITS ->
                failure (search_dementia (the_client env_credentials) sub_name
                           SEARCH_QUERY POST_LIMIT_PER_SUB) = None).
  { intros s _. unfold search_dementia. now destruct (decide _). }
  split; [exact H|].
  exact (eq_trans (proj1 (C5_six_channels_in_order search_dementia
                            (the_client env_credentials)
                            (fresh_world env_credentials) H))
                  eq_refl).
Defined.

Lemma C6_empty_result_exits_0_witness :
  let w := fresh_world env_credentials in
  let r := the_client env_credentials in
  (get_reddit_client writable_at_first w).1 = Ret r
  /\ (fetch_posts search_nothing r (get_reddit_client writable_at_first w).2).1
     = Ret []
  /\ (main writable_at_first search_nothing w).1 = Ret tt
  /\ files (main writable_at_first search_nothing w).2 = files w.
Proof.
  cbv zeta.
  assert (H1 : (get_reddit_client writable_at_first
                  (fresh_world env_credentials)).1
               = Ret (the_client env_credentials))
    by (vm_compute; reflexivity).
  assert (H2 : (fetch_posts search_nothing (the_client env_credentials)
                  (get_reddit_client writable_at_first
                     (fresh_world env_credentials)).2).1 = Ret [])
    by (vm_compute; reflexivity).
  split; [exact H1|]. split; [exact H2|].
  destruct (C6_empty_result_exits_0 writable_at_first search_nothing
              (fresh_world env_credentials) _ H1 H2)
    as (Hret & _ & Hfiles & _).
  split; [exact Hret|exact Hfiles].
Defined.

Lemma C9_client_is_read_only_witness :
  let w := fresh_world env_credentials in
  let r := the_client env_credentials in
  (get_reddit_client writable_at_first w).1 = Ret r
  /\ read_only r = true.
Proof.
  cbv zeta.
  assert (H1 : (get_reddit_client writable_at_first
                  (fresh_world env_credentials)).1
               = Ret (the_client env_credentials))
    by (vm_compute; reflexivity).
  split; [exact H1|].
  exact (proj1 (C9_client_is_read_only writable_at_first search_dementia
                  (fresh_world env_credentials) _ H1)).
Defined.

Lemma C10_empty_string_is_present_witness :
  let w := fresh_world env_empty_strings in
  REDDIT_CLIENT_SECRET ∈ all_vars
  /\ environ w !! REDDIT_CLIENT_SECRET = Some []
  /\ (forall k', k' ∈ required_vars -> k' <> REDDIT_CLIENT_SECRET ->
                 is_Some (environ w !! k'))
  /\ exists r, (get_reddit_client writable_at_first w).1 = Ret r
               /\ credential REDDIT_CLIENT_SECRET (config r) = Some []
               /\ user_agent (config r) = [].
Proof.
  cbv zeta.
  assert (H1 : REDDIT_CLIENT_SECRET ∈ all_vars)
    by (unfold all_vars, required_vars; cbn [app]; repeat constructor).
  assert (H2 : environ (fresh_world env_empty_strings) !! REDDIT_CLIENT_SECRET
               = Some []) by reflexivity.
  assert (H3 : forall k', k' ∈ required_vars -> k' <> REDDIT_CLIENT_SECRET ->
                 is_Some (environ (fresh_world env_empty_strings) !! k')).
  { intros k' Hk' _. unfold required_vars in Hk'.
    repeat (apply elem_of_cons in Hk' as [->|Hk']);
      [| | | |now apply elem_of_nil in Hk']; now eexists. }
  split; [exact H1|]. split; [exact H2|]. split; [exact H3|].
  destruct (C10_empty_string_is_present writable_at_first
              (fresh_world env_empty_strings) REDDIT_CLIENT_SECRET H1 H2 H3)
    as (r & Hr & _ & Hc & _ & _ & Hua).
  exists r. split; [exact Hr|]. split; [exact Hc|].
  apply Hua. reflexivity.
Defined.

(** * Further properties *)

(** ** What stripping keeps and removes *)

Module StripFacts.

Lemma lstrip_split (s : pystr) :
  exists ws, s = ws ++ lstrip s /\ all_space ws = true.
Proof.
  induction s as [|c s (ws & Hs & Hws)]; [now exists []|].
  simpl. destruct (isspace c) eqn:Hc.
  - exists (c :: ws). split; [simpl; congruence|]. simpl. now rewrite Hc.
  - now exists [].
Qed.

Lemma lstrip_head (s : pystr) (c : N) (t : pystr) :
  lstrip s = c :: t -> isspace c = false.
Proof.
  induction s as [|a s IH]; simpl; [discriminate|].
  destruct (isspace a) eqn:Ha; [exact IH|]. now intros [= <- _].
Qed.

Lemma lstrip_nonspace_head (c : N) (t : pystr) :
  isspace c = false -> lstrip (c :: t) = c :: t.
Proof. intros H. simpl. now rewrite H. Qed.

Lemma lstrip_nil (s : pystr) : lstrip s = [] <-> all_space s = true.
Proof.
  induction s as [|c s IH]; simpl; [tauto|].
  destruct (isspace c); simpl; [exact IH|]. split; discriminate.
Qed.

Lemma lstrip_snoc_nonspace (s : pystr) (c : N) :
  isspace c = false -> lstrip (s ++ [c]) = lstrip s ++ [c].
Proof.
  intros Hc. induction s as [|a s IH]; simpl.
  - now rewrite Hc.
  - destruct (isspace a); [exact IH|reflexivity].
Qed.

Lemma all_space_rev (s : pystr) : all_space (rev s) = all_space s.
Proof.
  unfold all_space. induction s as [|c s IH]; [reflexivity|].
  simpl. rewrite forallb_app, IH. simpl. rewrite andb_true_r. apply andb_comm.
Qed.

Lemma all_space_app (s t : pystr) :
  all_space (s ++ t) = all_space s && all_space t.
Proof. apply forallb_app. Qed.

Lemma rstrip_split (s : pystr) :
  exists ws, s = rstrip s ++ ws /\ all_space ws = true.
Proof.
  destruct (lstrip_split (rev s)) as (ws & Hs & Hws).
  exists (rev ws). split; [|now rewrite all_space_rev].
  unfold rstrip. rewrite <- rev_app_distr, <- Hs. now rewrite rev_involutive.
Qed.

Lemma rstrip_last (s t : pystr) (c : N) :
  rstrip s = t ++ [c] -> isspace c = false.
Proof.
  unfold rstrip. intros H. apply (f_equal (@rev N)) in H.
  rewrite rev_involutive, rev_app_distr in H. simpl in H.
  exact (lstrip_head _ _ _ H).
Qed.

Lemma rstrip_nonspace_head (c : N) (t : pystr) :
  isspace c = false -> exists t', rstrip (c :: t) = c :: t'.
Proof.
  intros Hc. unfold rstrip. simpl.
  rewrite (lstrip_snoc_nonspace _ _ Hc), rev_app_distr. simpl. eauto.
Qed.

Lemma strip_nil (s : pystr) : strip s = [] <-> all_space s = true.
Proof.
  unfold strip. rewrite <- lstrip_nil. split.
  - intros H. destruct (lstrip s) as [|c t] eqn:E; [reflexivity|].
    destruct (rstrip_nonspace_head c t (lstrip_head _ _ _ E)) as (t' & Ht').
    congruence.
  - now intros ->.
Qed.

Lemma strip_split (s : pystr) :
  exists ws1 ws2, s = ws1 ++ strip s ++ ws2
                  /\ all_space ws1 = true /\ all_space ws2 = true.
Proof.
  destruct (lstrip_split s) as (ws1 & H1 & Hw1).
  destruct (rstrip_split (lstrip s)) as (ws2 & H2 & Hw2).
  exists ws1, ws2. unfold strip. now rewrite <- H2.
Qed.

Lemma strip_head (s : pystr) :
  strip s <> [] -> exists c t, strip s = c :: t /\ isspace c = false.
Proof.
  unfold strip. intros Hne. destruct (lstrip s) as [|c t] eqn:E; [easy|].
  pose proof (lstrip_head _ _ _ E) as Hc.
  destruct (rstrip_nonspace_head c t Hc) as (t' & Ht'). eauto.
Qed.

Lemma strip_last (s : pystr) :
  strip s <> [] -> exists t c, strip s = t ++ [c] /\ isspace c = false.
Proof.
  intros Hne. destruct (exists_last Hne) as (t & c & Htc).
  exists t, c. split; [exact Htc|]. exact (rstrip_last _ _ _ Htc).
Qed.

Lemma strip_fixed (s : pystr) (c c' : N) (t t' : pystr) :
  s = c :: t -> s = t' ++ [c'] -> isspace c = false -> isspace c' = false ->
  strip s = s.
Proof.
  intros H1 H2 Hc Hc'. unfold strip.
  assert (Hl : lstrip s = s) by (rewrite H1; now apply lstrip_nonspace_head).
  rewrite Hl. unfold rstrip. rewrite H2, rev_app_distr. simpl. rewrite Hc'.
  change (c' :: rev t') with (rev [c'] ++ rev t').
  now rewrite <- rev_app_distr, rev_involutive.
Qed.

Lemma strip_idempotent (s : pystr) : strip (strip s) = strip s.
Proof.
  destruct (strip s) as [|a u] eqn:E; [reflexivity|].
  assert (Hne : strip s <> []) by congruence.
  destruct (strip_head s Hne) as (c & t & H1 & Hc).
  destruct (strip_last s Hne) as (t' & c' & H2 & Hc').
  rewrite <- E. exact (strip_fixed _ c c' t t' H1 H2 Hc Hc').
Qed.

Lemma all_space_exists (s : pystr) :
  all_space s = false <-> exists c, c ∈ s /\ isspace c = false.
Proof.
  unfold all_space. induction s as [|a s IH]; simpl.
  - split; [discriminate|]. intros (c & Hc & _). now apply elem_of_nil in Hc.
  - destruct (isspace a) eqn:Ha; simpl.
    + rewrite IH. split.
      * intros (c & Hc & H). exists c. split; [now apply list_elem_of_further|exact H].
      * intros (c & Hc & H). apply elem_of_cons in Hc as [->|Hc]; [congruence|eauto].
    + split; [|reflexivity]. intros _. exists a. split; [apply list_elem_of_here|exact Ha].
Qed.

End StripFacts.

Import StripFacts.

Lemma combined_text_raw (p : post) : combined_text p = strip (raw_text p).
Proof. reflexivity. Qed.

(** X1: the "text" field of every emitted record is non-empty, begins
    and ends with a character that is not whitespace, and stripping it
    again changes nothing. *)
Theorem X1_text_field_is_trimmed (sub_name : pystr) (p : post) (r : dict) :
  process_post sub_name p = Some r ->
  exists text,
    dict_get (lit "text") r = Some (VStr text)
    /\ (exists c t, text = c :: t /\ isspace c = false)
    /\ (exists t c, text = t ++ [c] /\ isspace c = false)
    /\ strip text = text.
Proof.
  intros H. apply process_post_Some in H as (_ & Hne & ->).
  exists (combined_text p). split; [reflexivity|].
  rewrite combined_text_raw in *.
  split; [now apply strip_head|]. split; [now apply strip_last|].
  apply strip_idempotent.
Qed.

Lemma X1_text_field_is_trimmed_witness :
  process_post (lit "dementia") post_help
  = Some (make_record (lit "dementia") post_help (combined_text post_help))
  /\ exists text,
       dict_get (lit "text")
         (make_record (lit "dementia") post_help (combined_text post_help))
       = Some (VStr text)
       /\ strip text = text.
Proof.
  assert (H : process_post (lit "dementia") post_help
              = Some (make_record (lit "dementia") post_help
                        (combined_text post_help)))
    by (vm_compute; reflexivity).
  split; [exact H|].
  destruct (X1_text_field_is_trimmed _ _ _ H) as (text & Ht & _ & _ & Hs).
  exists text. split; [exact Ht|exact Hs].
Defined.

(** X2: stripping removes whitespace at the two ends only: the title,
    two newlines and the body (or the empty string) are some whitespace,
    then the text of the item, then some whitespace. *)
Theorem X2_text_loses_only_outer_whitespace (p : post) :
  exists ws1 ws2,
    title p ++ [10; 10] ++ default [] (selftext p)
    = ws1 ++ combined_text p ++ ws2
    /\ all_space ws1 = true /\ all_space ws2 = true.
Proof.
  rewrite combined_text_eq. apply strip_split.
Qed.

(** X3: an item yields a record exactly when it is not stickied and its
    title or its body has a character that is not whitespace; an item
    whose title and body are blank yields none. *)
Theorem X3_record_iff_some_visible_character (sub_name : pystr) (p : post) :
  is_Some (process_post sub_name p)
  <-> stickied p = false
      /\ exists c, c ∈ title p ++ default [] (selftext p)
                   /\ isspace c = false.
Proof.
  assert (Hvis : combined_text p <> [] <->
                 exists c, c ∈ title p ++ default [] (selftext p)
                           /\ isspace c = false).
  { rewrite combined_text_eq. rewrite <- all_space_exists.
    assert (Hs : forall s, strip s <> [] <-> all_space s = false).
    { intros s. rewrite strip_nil. destruct (all_space s); split; congruence. }
    rewrite Hs. rewrite !all_space_app. simpl.
    destruct (all_space (title p)), (all_space (default [] (selftext p)));
      simpl; tauto. }
  rewrite <- Hvis. split.
  - intros [r Hr]. apply process_post_Some in Hr. tauto.
  - intros [Hs Ht]. eexists. apply process_post_Some. eauto.
Qed.

(** ** Further facts about the loop over the channels *)

Lemma process_post_accepted (sub_name : pystr) (p : post) :
  process_post sub_name p
  = if accepted p then Some (make_record sub_name p (combined_text p)) else None.
Proof.
  unfold process_post, accepted. destruct (stickied p); [reflexivity|].
  cbv zeta. now destruct (truthy (combined_text p)).
Qed.

Lemma length_omap_process_post (sub_name : pystr) (ps : list post) :
  length (omap (process_post sub_name) ps) = length (List.filter accepted ps).
Proof.
  induction ps as [|p ps IH]; [reflexivity|].
  change (omap (process_post sub_name) (p :: ps))
    with (match process_post sub_name p with
          | Some d => d :: omap (process_post sub_name) ps
          | None => omap (process_post sub_name) ps
          end).
  cbn [List.filter]. rewrite process_post_accepted.
  destruct (accepted p); cbn [length]; now rewrite IH.
Qed.

Lemma searches_channel_events (r : Reddit) (subs : list pystr) :
  searches (concat (List.map (channel_events r) subs))
  = List.map (fun s => (s, SEARCH_QUERY, POST_LIMIT_PER_SUB)) subs.
Proof. induction subs as [|s subs IH]; [reflexivity|]. simpl. now f_equal. Qed.

Lemma stdout_channel_events (r : Reddit) (subs : list pystr) :
  stdout_lines (concat (List.map (channel_events r) subs))
  = List.map notice subs.
Proof. induction subs as [|s subs IH]; [reflexivity|]. simpl. now f_equal. Qed.

Section Channels.

Variable search_results : Reddit -> pystr -> pystr -> N -> listing.

Local Abbreviation listing_of r sub_name :=
  (search_results r sub_name SEARCH_QUERY POST_LIMIT_PER_SUB).
Local Abbreviation collect' := (collect search_results).
Local Abbreviation records_of := (channel_records search_results).

Lemma records_membership (r : Reddit) (subs : list pystr) (d : dict) :
  d ∈ concat (List.map (records_of r) subs)
  <-> exists sub_name p, sub_name ∈ subs /\ p ∈ items (listing_of r sub_name)
                         /\ process_post sub_name p = Some d.
Proof.
  induction subs as [|s subs IH]; simpl.
  - split; [intros H; now apply elem_of_nil in H|].
    intros (s & p & Hs & _). now apply elem_of_nil in Hs.
  - rewrite elem_of_app, IH. unfold channel_records at 1.
    rewrite list_elem_of_omap. split.
    + intros [(p & Hp & Hd)|(s' & p & Hs' & Hp & Hd)].
      * exists s, p. split; [apply list_elem_of_here|auto].
      * exists s', p. split; [now apply list_elem_of_further|auto].
    + intros (s' & p & Hs' & Hp & Hd).
      apply elem_of_cons in Hs' as [->|Hs']; [left; eauto|right; eauto].
Qed.

Lemma length_records (r : Reddit) (subs : list pystr) :
  length (concat (List.map (records_of r) subs))
  = length (List.filter accepted
              (concat (List.map (fun s => items (listing_of r s)) subs))).
Proof.
  induction subs as [|s subs IH]; [reflexivity|].
  simpl. rewrite List.filter_app, !length_app, IH. f_equal.
  apply length_omap_process_post.
Qed.

Lemma length_records_bound (r : Reddit) (subs : list pystr) (n : nat) :
  (forall s, s ∈ subs -> (length (items (listing_of r s)) <= n)%nat) ->
  (length (concat (List.map (records_of r) subs)) <= length subs * n)%nat.
Proof.
  induction subs as [|s subs IH]; intros H; [simpl; lia|].
  simpl. rewrite length_app.
  assert (H1 : (length (records_of r s) <= n)%nat).
  { unfold channel_records. rewrite length_omap_process_post.
    etransitivity; [apply List.filter_length_le|].
    apply H, list_elem_of_here. }
  assert (H2 : (length (concat (List.map (records_of r) subs))
                <= length subs * n)%nat).
  { apply IH. intros s' Hs'. apply H. now apply list_elem_of_further. }
  lia.
Qed.

(** The loop stops at the first channel whose search fails. *)
Lemma collect_first_failure (r : Reddit) (ok rest : list pystr) (bad : pystr)
    (e : exn) (results : list dict) :
  (forall s, s ∈ ok -> failure (listing_of r s) = None) ->
  failure (listing_of r bad) = Some e ->
  collect' r (ok ++ bad :: rest) results
  = (Raise e, concat (List.map (channel_events r) (ok ++ [bad]))).
Proof.
  revert results. induction ok as [|s ok IH]; intros results Hok Hbad.
  - cbn [app collect List.map concat]. rewrite Hbad. now rewrite app_nil_r.
  - cbn [app collect List.map concat].
    rewrite (Hok s) by apply list_elem_of_here.
    rewrite IH; [reflexivity| |exact Hbad].
    intros s' Hs'. apply Hok. now apply list_elem_of_further.
Qed.

(** The loop never ends by [sys.exit]. *)
Lemma collect_never_exits (r : Reddit) (subs : list pystr)
    (results : list dict) (code : Z) :
  (collect' r subs results).1 <> Exit code.
Proof.
  revert results. induction subs as [|s subs IH]; intros results; cbn [collect].
  - discriminate.
  - destruct (failure (listing_of r s)); [discriminate|apply IH].
Qed.

Lemma collect_Ret_records (r : Reddit) (posts : list dict) :
  (collect' r SUBREDDITS []).1 = Ret posts ->
  posts = concat (List.map (records_of r) SUBREDDITS)
  /\ (collect' r SUBREDDITS []).2
     = concat (List.map (channel_events r) SUBREDDITS)
  /\ forall s, s ∈ SUBREDDITS -> failure (listing_of r s) = None.
Proof.
  intros H. pose proof (collect_Ret search_results r _ _ _ H) as Hok.
  rewrite (collect_ok search_results r _ [] Hok) in *. cbn [fst snd] in *.
  split; [now injection H as <-|]. split; [reflexivity|exact Hok].
Qed.

End Channels.

(** ** Further properties of whole runs *)

Section Further.

Variable initial_read_only : credentials -> bool.
Variable search_results : Reddit -> pystr -> pystr -> N -> listing.

Local Abbreviation listing_of r sub_name :=
  (search_results r sub_name SEARCH_QUERY POST_LIMIT_PER_SUB).
Local Abbreviation get_client := (get_reddit_client initial_read_only).
Local Abbreviation fetch_posts' := (fetch_posts search_results).
Local Abbreviation collect' := (collect search_results).
Local Abbreviation records_of := (channel_records search_results).
Local Abbreviation main' := (main initial_read_only search_results).

Lemma fetch_posts_Ret (r : Reddit) (w : world) (posts : list dict) :
  (fetch_posts' r w).1 = Ret posts ->
  posts = concat (List.map (records_of r) SUBREDDITS)
  /\ forall s, s ∈ SUBREDDITS -> failure (listing_of r s) = None.
Proof.
  rewrite fetch_posts_run. cbn [fst]. intros H.
  destruct (collect_Ret_records search_results r posts H) as (H1 & _ & H3).
  auto.
Qed.

(** X4: the number of records [fetch_posts] returns is the number of
    items, over the six channels, that are not stickied and have a
    non-empty text. *)
Theorem X4_record_count (r : Reddit) (w : world) (posts : list dict) :
  (fetch_posts' r w).1 = Ret posts ->
  length posts
  = length (List.filter
              (fun p => negb (stickied p) && truthy (combined_text p))
              (concat (List.map
                         (fun s => items (search_results r s SEARCH_QUERY 50))
                         SUBREDDITS))).
Proof.
  intros H. apply fetch_posts_Ret in H as [-> _].
  apply (length_records search_results).
Qed.

(** X5: every record [fetch_posts] returns comes from an item that one
    of the six channels returned and that is not stickied: it carries the
    channel name, the item's id, title, body, score, comment count and
    creation time unchanged, and its permalink is the item's path after
    the origin https://www.reddit.com. *)
Theorem X5_record_fields_come_from_an_item (r : Reddit) (w : world)
    (posts : list dict) (d : dict) :
  (fetch_posts' r w).1 = Ret posts ->
  d ∈ posts ->
  exists sub_name p,
    sub_name ∈ SUBREDDITS
    /\ p ∈ items (search_results r sub_name SEARCH_QUERY 50)
    /\ stickied p = false
    /\ dict_get (lit "subreddit") d = Some (VStr sub_name)
    /\ dict_get (lit "id") d = Some (VStr (post_id p))
    /\ dict_get (lit "title") d = Some (VStr (title p))
    /\ dict_get (lit "body") d = Some (opt_str (selftext p))
    /\ dict_get (lit "score") d = Some (VInt (score p))
    /\ dict_get (lit "num_comments") d = Some (VInt (num_comments p))
    /\ dict_get (lit "created_utc") d = Some (VFloat (created_utc p))
    /\ dict_get (lit "permalink") d
       = Some (VStr (lit "https://www.reddit.com" ++ permalink p)).
Proof.
  intros H Hd. apply fetch_posts_Ret in H as [-> _].
  apply (records_membership search_results) in Hd as (s & p & Hs & Hp & Hr).
  apply process_post_Some in Hr as (Hst & _ & ->).
  exists s, p. repeat (split; [first [assumption|reflexivity]|]). reflexivity.
Qed.

(** X6: records are not deduplicated: an accepted item that two
    different channels return gives two different records with the same
    id, one for each channel. *)
Theorem X6_no_deduplication (r : Reddit) (w : world) (posts : list dict)
    (s1 s2 : pystr) (p : post) :
  (fetch_posts' r w).1 = Ret posts ->
  s1 ∈ SUBREDDITS -> s2 ∈ SUBREDDITS -> s1 <> s2 ->
  p ∈ items (listing_of r s1) -> p ∈ items (listing_of r s2) ->
  stickied p = false -> combined_text p <> [] ->
  exists d1 d2,
    d1 ∈ posts /\ d2 ∈ posts /\ d1 <> d2
    /\ dict_get (lit "id") d1 = Some (VStr (post_id p))
    /\ dict_get (lit "id") d2 = Some (VStr (post_id p))
    /\ dict_get (lit "subreddit") d1 = Some (VStr s1)
    /\ dict_get (lit "subreddit") d2 = Some (VStr s2).
Proof.
  intros H H1 H2 Hne Hp1 Hp2 Hst Htxt. apply fetch_posts_Ret in H as [-> _].
  exists (make_record s1 p (combined_text p)),
         (make_record s2 p (combined_text p)).
  split; [|split; [|split]].
  - apply (records_membership search_results). exists s1, p.
    split; [exact H1|]. split; [exact Hp1|]. now apply process_post_Some.
  - apply (records_membership search_results). exists s2, p.
    split; [exact H2|]. split; [exact Hp2|]. now apply process_post_Some.
  - intros Heq. apply Hne. unfold make_record in Heq. congruence.
  - repeat split; reflexivity.
Qed.

(** X7: the run stops at the first channel whose search fails: it ends
    with the exception of that channel, the channels up to and including
    it were announced and searched in order, and no later channel is
    announced or searched. *)
Theorem X7_stops_at_first_failing_channel (w : world) (r : Reddit)
    (ok rest : list pystr) (bad : pystr) (e : exn) :
  (get_client w).1 = Ret r ->
  SUBREDDITS = ok ++ bad :: rest ->
  (forall s, s ∈ ok -> failure (listing_of r s) = None) ->
  failure (listing_of r bad) = Some e ->
  (main' w).1 = Raise e
  /\ exists es,
       trace (main' w).2 = trace w ++ es
       /\ searches es
          = List.map (fun s => (s, SEARCH_QUERY, 50)) (ok ++ [bad])
       /\ stdout_lines es = List.map notice (ok ++ [bad]).
Proof.
  intros Hc Hsplit Hok Hbad. apply get_client_Ret in Hc as [Hnone ->].
  destruct (main_with_client initial_read_only search_results w Hnone)
    as [_ Hmain].
  cbv zeta in Hmain. rewrite Hsplit in Hmain.
  rewrite (collect_first_failure search_results _ ok rest bad e [] Hok Hbad)
    in Hmain.
  cbn [fst snd] in Hmain. rewrite Hmain. split; [reflexivity|].
  eexists. split; [reflexivity|]. split.
  - unfold searches. rewrite omap_app.
    fold (searches (factory_events (environ w))).
    fold (searches (concat (List.map (channel_events (the_client (environ w)))
                              (ok ++ [bad])))).
    now rewrite searches_channel_events.
  - unfold stdout_lines. rewrite omap_app.
    fold (stdout_lines (factory_events (environ w))).
    fold (stdout_lines (concat (List.map (channel_events (the_client (environ w)))
                                  (ok ++ [bad])))).
    now rewrite stdout_channel_events.
Qed.

(** X8: the exit status of a run is 0 or 1, and it is 0 exactly when the
    four required variables are present and no search of the six channels
    fails. *)
Theorem X8_exit_status (w : world) :
  (exit_status (main' w).1 = 0%Z \/ exit_status (main' w).1 = 1%Z)
  /\ (exit_status (main' w).1 = 0%Z
      <-> (forall k, k ∈ [ REDDIT_CLIENT_ID; REDDIT_CLIENT_SECRET;
                           REDDIT_USERNAME; REDDIT_PASSWORD ] ->
                     is_Some (environ w !! k))
          /\ forall s, s ∈ SUBREDDITS ->
                failure (listing_of (the_client (environ w)) s) = None).
Proof.
  change [REDDIT_CLIENT_ID; REDDIT_CLIENT_SECRET; REDDIT_USERNAME;
          REDDIT_PASSWORD] with required_vars.
  rewrite <- first_missing_None.
  destruct (first_missing (environ w) required_vars) as [m|] eqn:E.
  - destruct (main_missing initial_read_only search_results w m E) as [_ ->].
    cbn [fst exit_status]. split; [now right|].
    split; [discriminate|]. intros [? _]. discriminate.
  - destruct (main_with_client initial_read_only search_results w E)
      as [_ Hmain].
    cbv zeta in Hmain. rewrite Hmain. clear Hmain.
    set (r := the_client (environ w)).
    destruct ((collect' r SUBREDDITS []).1) as [posts|code|e] eqn:Eo.
    + pose proof (collect_Ret search_results r _ _ _ Eo) as Hok.
      assert (Hz : exit_status
                     (match posts with
                      | [] => (Ret tt, add_events
                                 ((factory_events (environ w)
                                   ++ (collect' r SUBREDDITS []).2)
                                  ++ [Stdout NO_POSTS_MESSAGE]) w)
                      | d :: ds =>
                          (Ret tt,
                           write_file OUTPUT_CSV
                             (csv_of_frame (DataFrame (d :: ds)))
                             (add_events
                                ((factory_events (environ w)
                                  ++ (collect' r SUBREDDITS []).2)
                                 ++ [ToCsv OUTPUT_CSV;
                                     Stdout (saved_message (length (d :: ds)))])
                                w))
                      end).1 = 0%Z) by (destruct posts; reflexivity).
      rewrite Hz. split; [now left|]. split; [auto|reflexivity].
    + exfalso. exact (collect_never_exits search_results r _ _ _ Eo).
    + cbn [fst exit_status]. split; [now right|].
      split; [discriminate|]. intros [_ Hok].
      rewrite (collect_ok search_results r _ [] Hok) in Eo. discriminate.
Qed.

(** X9: a run changes no file other than the output file and leaves the
    environment as it was. *)
Theorem X9_only_the_output_file_changes (w : world) (path : pystr) :
  path <> OUTPUT_CSV ->
  files (main' w).2 !! path = files w !! path
  /\ environ (main' w).2 = environ w.
Proof.
  intros Hpath.
  destruct (first_missing (environ w) required_vars) as [m|] eqn:E.
  - destruct (main_missing initial_read_only search_results w m E) as [_ ->].
    split; reflexivity.
  - destruct (main_with_client initial_read_only search_results w E)
      as [_ Hmain].
    cbv zeta in Hmain. rewrite Hmain. clear Hmain.
    destruct ((collect' (the_client (environ w)) SUBREDDITS []).1)
      as [[|d ds]|code|e]; cbn [snd]; try (split; reflexivity).
    unfold write_file. cbn [files environ add_events].
    split; [|reflexivity]. now apply lookup_insert_ne.
Qed.

(** X10: a run that collects its records prints the progress notice of
    each of the six channels, in order, and then one last line: the
    message that no posts were collected when there are none, and
    otherwise the message giving the number of records saved and the
    output path. *)
Theorem X10_console_of_a_complete_run (w : world) (r : Reddit)
    (posts : list dict) :
  (get_client w).1 = Ret r ->
  (fetch_posts' r (get_client w).2).1 = Ret posts ->
  exists es,
    trace (main' w).2 = trace w ++ es
    /\ stdout_lines es
       = List.map
           (fun s => lit "Fetching posts from r/" ++ s ++ lit " ...")
           SUBREDDITS
         ++ [ match posts with
              | [] => lit "No posts collected. Try adjusting SEARCH_QUERY or limits."
              | _ :: _ =>
                  lit "Saved " ++ str_of_nat (length posts) ++ lit " posts to "
                  ++ OUTPUT_CSV
              end ].
Proof.
  intros Hc Hf.
  destruct (fetch_after_client initial_read_only search_results w r Hc)
    as (Hnone & -> & Hout & _).
  rewrite Hout in Hf. clear Hout.
  destruct (main_with_client initial_read_only search_results w Hnone)
    as [_ Hmain].
  cbv zeta in Hmain. rewrite Hf in Hmain.
  destruct (collect_Ret_records search_results _ _ Hf) as (_ & Hev & _).
  rewrite Hev in Hmain. rewrite Hmain. clear Hmain.
  assert (Hproj : forall last,
             stdout_lines
               ((factory_events (environ w)
                 ++ concat (List.map (channel_events (the_client (environ w)))
                              SUBREDDITS)) ++ last)
             = List.map notice SUBREDDITS ++ stdout_lines last).
  { intros last. unfold stdout_lines. rewrite !omap_app.
    fold (stdout_lines (concat (List.map (channel_events (the_client (environ w)))
                                  SUBREDDITS))).
    now rewrite stdout_channel_events. }
  destruct posts as [|d ds]; (eexists; split; [reflexivity|]);
    rewrite Hproj; reflexivity.
Qed.

(** X11: when each of the six searches yields at most 50 items, the cap
    passed to it, [fetch_posts] returns at most 300 records. *)
Theorem X11_at_most_300_records (r : Reddit) (w : world) (posts : list dict) :
  (fetch_posts' r w).1 = Ret posts ->
  (forall s, s ∈ SUBREDDITS ->
     (length (items (search_results r s SEARCH_QUERY 50)) <= 50)%nat) ->
  (length posts <= 300)%nat.
Proof.
  intros H Hcap. apply fetch_posts_Ret in H as [-> _].
  exact (length_records_bound search_results r SUBREDDITS 50 Hcap).
Qed.

(** X14: every row of the file written by a run that collected records,
    the header included, has nine cells. *)
Theorem X14_rows_have_nine_cells (w : world) (r : Reddit) (posts : list dict) :
  (get_client w).1 = Ret r ->
  (fetch_posts' r (get_client w).2).1 = Ret posts ->
  posts <> [] ->
  exists file,
    files (main' w).2 !! OUTPUT_CSV = Some file
    /\ length file = S (length posts)
    /\ forall row, row ∈ file -> length row = 9%nat.
Proof.
  intros Hc Hf Hne.
  destruct (fetch_after_client initial_read_only search_results w r Hc)
    as (Hnone & -> & Hout & _).
  rewrite Hout in Hf. clear Hout.
  destruct (main_with_client initial_read_only search_results w Hnone)
    as [_ Hmain].
  cbv zeta in Hmain. rewrite Hf in Hmain.
  pose proof (collected_are_records search_results _ _ Hf) as Hrec.
  destruct posts as [|d ds]; [congruence|]. rewrite Hmain. cbn [snd].
  eexists. split; [|split].
  - unfold write_file. cbn [files]. apply lookup_insert_eq.
  - rewrite csv_of_records by assumption. cbn [length]. now rewrite length_map.
  - rewrite csv_of_records by assumption. intros row Hrow.
    apply elem_of_cons in Hrow as [->|Hrow]; [reflexivity|].
    apply list_elem_of_In, in_map_iff in Hrow as (d' & <- & Hd').
    rewrite Forall_forall in Hrec.
    destruct (Hrec d' (proj2 (list_elem_of_In _ _) Hd')) as (s & p & t & ->).
    reflexivity.
Qed.

End Further.

(** ** Further properties of the client factory *)

Lemma first_missing_split (env : gmap pystr pystr) (before after : list pystr)
    (m : pystr) :
  (forall k, k ∈ before -> is_Some (env !! k)) -> env !! m = None ->
  first_missing env (before ++ m :: after) = Some m.
Proof.
  intros Hb Hm. induction before as [|k before IH]; simpl.
  - now rewrite Hm.
  - destruct (Hb k (list_elem_of_here _ _)) as [v ->].
    apply IH. intros k' Hk'. apply Hb. now apply list_elem_of_further.
Qed.

Lemma reads_until_split (before after : list pystr) (m : pystr) :
  m ∉ before -> reads_until m (before ++ m :: after) = before ++ [m].
Proof.
  intros Hm. induction before as [|k before IH]; simpl.
  - now rewrite decide_True.
  - rewrite decide_False by (intros ->; apply Hm, list_elem_of_here).
    rewrite IH; [reflexivity|]. intros H. apply Hm. now apply list_elem_of_further.
Qed.


Section FurtherFactory.

Variable initial_read_only : credentials -> bool.

Local Abbreviation get_client := (get_reddit_client initial_read_only).

(** X12: the factory looks the required variables up in the order client
    id, client secret, user name, password and stops at the first one
    that is absent: that one is the variable named on standard error, the
    ones before it were looked up, and no later variable is looked up,
    whether present or not. *)
Theorem X12_first_missing_variable_is_reported (w : world)
    (before after : list pystr) (m : pystr) :
  [ REDDIT_CLIENT_ID; REDDIT_CLIENT_SECRET; REDDIT_USERNAME; REDDIT_PASSWORD ]
  = before ++ m :: after ->
  (forall k, k ∈ before -> is_Some (environ w !! k)) ->
  environ w !! m = None ->
  (get_client w).1 = Exit 1
  /\ exists es,
       trace (get_client w).2 = trace w ++ es
       /\ getenvs es = before ++ [m]
       /\ stderr_lines es
          = [ lit "Missing environment variable: '" ++ m ++ lit "'" ].
Proof.
  intros Hsplit Hbefore Hm.
  change [REDDIT_CLIENT_ID; REDDIT_CLIENT_SECRET; REDDIT_USERNAME;
          REDDIT_PASSWORD] with required_vars in Hsplit.
  rewrite get_reddit_client_run, Hsplit.
  rewrite (first_missing_split _ _ _ _ Hbefore Hm). cbn [fst snd].
  split; [reflexivity|]. eexists. split; [reflexivity|].
  assert (Hnotin : m ∉ before).
  { intros Hin. destruct (Hbefore m Hin) as [v Hv]. congruence. }
  rewrite (reads_until_split _ _ _ Hnotin). split.
  - unfold getenvs. rewrite omap_app.
    fold (getenvs (List.map Getenv (before ++ [m]))).
    rewrite getenvs_map_Getenv. apply app_nil_r.
  - unfold stderr_lines. rewrite omap_app.
    rewrite other_map_Getenv by reflexivity. reflexivity.
Qed.


End FurtherFactory.

(** ** The further properties at concrete inputs *)

Lemma client_of_env_credentials :
  (get_reddit_client writable_at_first (fresh_world env_credentials)).1
  = Ret (the_client env_credentials).
Proof. vm_compute. reflexivity. Qed.

Lemma fetch_dementia (w : world) :
  (fetch_posts search_dementia (the_client env_credentials) w).1
  = Ret dementia_records.
Proof. rewrite fetch_posts_run. vm_compute. reflexivity. Qed.

Lemma X4_record_count_witness :
  (fetch_posts search_dementia (the_client env_credentials)
     (fresh_world env_credentials)).1 = Ret dementia_records
  /\ length dementia_records = 2%nat.
Proof.
  split; [apply fetch_dementia|].
  exact (eq_trans (X4_record_count search_dementia _ _ _
                     (fetch_dementia (fresh_world env_credentials)))
                  eq_refl).
Defined.

Lemma X5_record_fields_come_from_an_item_witness :
  let d := make_record (lit "dementia") bodyless_item (lit "x") in
  (fetch_posts search_dementia (the_client env_credentials)
     (fresh_world env_credentials)).1 = Ret dementia_records
  /\ d ∈ dementia_records
  /\ exists p, dict_get (lit "permalink") d
               = Some (VStr (lit "https://www.reddit.com" ++ permalink p)).
Proof.
  cbv zeta.
  assert (Hd : make_record (lit "dementia") bodyless_item (lit "x")
               ∈ dementia_records)
    by (unfold dementia_records; apply list_elem_of_further, list_elem_of_here).
  split; [apply fetch_dementia|]. split; [exact Hd|].
  destruct (X5_record_fields_come_from_an_item search_dementia _ _ _ _
              (fetch_dementia (fresh_world env_credentials)) Hd)
    as (s & p & H).
  exists p. apply H.
Defined.

Lemma X6_no_deduplication_witness :
  let r := the_client env_credentials in
  let posts := concat (List.map (channel_records search_overlap r) SUBREDDITS) in
  (fetch_posts search_overlap r (fresh_world env_credentials)).1 = Ret posts
  /\ lit "eldercare" <> lit "caregivers"
  /\ exists d1 d2, d1 ∈ posts /\ d2 ∈ posts /\ d1 <> d2.
Proof.
  cbv zeta.
  assert (H : (fetch_posts search_overlap (the_client env_credentials)
                 (fresh_world env_credentials)).1
              = Ret (concat (List.map (channel_records search_overlap
                                         (the_client env_credentials))
                               SUBREDDITS)))
    by (vm_compute; reflexivity).
  assert (Hne : lit "eldercare" <> lit "caregivers") by discriminate.
  assert (H1 : lit "eldercare" ∈ SUBREDDITS)
    by (unfold SUBREDDITS; repeat constructor).
  assert (H2 : lit "caregivers" ∈ SUBREDDITS)
    by (unfold SUBREDDITS; repeat constructor).
  assert (Hp : forall s, post_help ∈ items (search_overlap
                 (the_client env_credentials) s SEARCH_QUERY POST_LIMIT_PER_SUB))
    by (intros s; apply list_elem_of_here).
  assert (Ht : combined_text post_help <> []) by (vm_compute; discriminate).
  split; [exact H|]. split; [exact Hne|].
  destruct (X6_no_deduplication search_overlap _ _ _ _ _ post_help
              H H1 H2 Hne (Hp _) (Hp _) eq_refl Ht)
    as (d1 & d2 & Hd1 & Hd2 & Hd & _).
  exists d1, d2. auto.
Defined.

Lemma X7_stops_at_first_failing_channel_witness :
  let w := fresh_world env_credentials in
  let r := the_client env_credentials in
  (get_reddit_client writable_at_first w).1 = Ret r
  /\ SUBREDDITS
     = [lit "eldercare"] ++ lit "caregivers"
       :: [lit "agingparents"; lit "dementia"; lit "nursing"; lit "premed"]
  /\ (forall s, s ∈ [lit "eldercare"] ->
        failure (search_failing r s SEARCH_QUERY POST_LIMIT_PER_SUB) = None)
  /\ failure (search_failing r (lit "caregivers") SEARCH_QUERY POST_LIMIT_PER_SUB)
     = Some (SourceError (lit "TooManyRequests"))
  /\ (main writable_at_first search_failing w).1
     = Raise (SourceError (lit "TooManyRequests")).
Proof.
  cbv zeta.
  assert (H2 : SUBREDDITS
               = [lit "eldercare"] ++ lit "caregivers"
                 :: [lit "agingparents"; lit "dementia"; lit "nursing";
                     lit "premed"]) by reflexivity.
  assert (H3 : forall s, s ∈ [lit "eldercare"] ->
                 failure (search_failing (the_client env_credentials) s
                            SEARCH_QUERY POST_LIMIT_PER_SUB) = None).
  { intros s Hs. apply list_elem_of_singleton in Hs as ->. reflexivity. }
  assert (H4 : failure (search_failing (the_client env_credentials)
                          (lit "caregivers") SEARCH_QUERY POST_LIMIT_PER_SUB)
               = Some (SourceError (lit "TooManyRequests"))) by reflexivity.
  split; [exact client_of_env_credentials|]. split; [exact H2|].
  split; [exact H3|]. split; [exact H4|].
  exact (proj1 (X7_stops_at_first_failing_channel writable_at_first
                  search_failing (fresh_world env_credentials) _ _ _ _ _
                  client_of_env_credentials H2 H3 H4)).
Defined.

Lemma X9_only_the_output_file_changes_witness :
  lit "notes.csv" <> OUTPUT_CSV
  /\ files (main writable_at_first search_dementia world_with_notes).2
       !! lit "notes.csv"
     = Some [[VStr (lit "kept")]].
Proof.
  assert (H : lit "notes.csv" <> OUTPUT_CSV) by discriminate.
  split; [exact H|].
  exact (eq_trans (proj1 (X9_only_the_output_file_changes writable_at_first
                            search_dementia world_with_notes _ H))
                  eq_refl).
Defined.

Lemma X10_console_of_a_complete_run_witness :
  let w := fresh_world env_credentials in
  let r := the_client env_credentials in
  (get_reddit_client writable_at_first w).1 = Ret r
  /\ (fetch_posts search_dementia r (get_reddit_client writable_at_first w).2).1
     = Ret dementia_records
  /\ exists es,
       trace (main writable_at_first search_dementia w).2 = trace w ++ es
       /\ last (stdout_lines es)
          = Some (lit "Saved 2 posts to caregiving_reddit_posts.csv").
Proof.
  cbv zeta.
  split; [exact client_of_env_credentials|]. split; [apply fetch_dementia|].
  destruct (X10_console_of_a_complete_run writable_at_first search_dementia
              (fresh_world env_credentials) _ _
              client_of_env_credentials (fetch_dementia _))
    as (es & Htrace & Hout).
  exists es. split; [exact Htrace|]. rewrite Hout. reflexivity.
Defined.

Lemma X11_at_most_300_records_witness :
  let r := the_client env_credentials in
  (fetch_posts search_dementia r (fresh_world env_credentials)).1
  = Ret dementia_records
  /\ (forall s, s ∈ SUBREDDITS ->
        (length (items (search_dementia r s SEARCH_QUERY 50)) <= 50)%nat)
  /\ (length dementia_records <= 300)%nat.
Proof.
  cbv zeta.
  assert (H : forall s, s ∈ SUBREDDITS ->
                (length (items (search_dementia (the_client env_credentials) s
                                  SEARCH_QUERY 50)) <= 50)%nat).
  { intros s _. unfold search_dementia. destruct (decide _); simpl; lia. }
  split; [apply fetch_dementia|]. split; [exact H|].
  exact (X11_at_most_300_records search_dementia _ _ _
           (fetch_dementia (fresh_world env_credentials)) H).
Defined.

Lemma X14_rows_have_nine_cells_witness :
  let w := fresh_world env_credentials in
  let r := the_client env_credentials in
  (get_reddit_client writable_at_first w).1 = Ret r
  /\ (fetch_posts search_dementia r (get_reddit_client writable_at_first w).2).1
     = Ret dementia_records
  /\ dementia_records <> []
  /\ exists file,
       files (main writable_at_first search_dementia w).2 !! OUTPUT_CSV
       = Some file
       /\ length file = 3%nat.
Proof.
  cbv zeta.
  assert (Hne : dementia_records <> []) by discriminate.
  split; [exact client_of_env_credentials|]. split; [apply fetch_dementia|].
  split; [exact Hne|].
  destruct (X14_rows_have_nine_cells writable_at_first search_dementia
              (fresh_world env_credentials) _ _
              client_of_env_credentials (fetch_dementia _) Hne)
    as (file & Hfile & Hlen & _).
  exists file. split; [exact Hfile|exact Hlen].
Defined.

Lemma X12_first_missing_variable_is_reported_witness :
  let w := fresh_world env_no_password in
  [ REDDIT_CLIENT_ID; REDDIT_CLIENT_SECRET; REDDIT_USERNAME; REDDIT_PASSWORD ]
  = [ REDDIT_CLIENT_ID; REDDIT_CLIENT_SECRET; REDDIT_USERNAME ]
    ++ REDDIT_PASSWORD :: []
  /\ (forall k, k ∈ [ REDDIT_CLIENT_ID; REDDIT_CLIENT_SECRET; REDDIT_USERNAME ] ->
                 is_Some (environ w !! k))
  /\ environ w !! REDDIT_PASSWORD = None
  /\ (get_reddit_client writable_at_first w).1 = Exit 1.
Proof.
  cbv zeta.
  assert (H2 : forall k, k ∈ [ REDDIT_CLIENT_ID; REDDIT_CLIENT_SECRET;
                               REDDIT_USERNAME ] ->
                 is_Some (environ (fresh_world env_no_password) !! k)).
  { intros k Hk.
    repeat (apply elem_of_cons in Hk as [->|Hk]);
      [| | |now apply elem_of_nil in Hk]; now eexists. }
  assert (H3 : environ (fresh_world env_no_password) !! REDDIT_PASSWORD = None)
    by reflexivity.
  split; [reflexivity|]. split; [exact H2|]. split; [exact H3|].
  exact (proj1 (X12_first_missing_variable_is_reported writable_at_first
                  (fresh_world env_no_password)
                  [REDDIT_CLIENT_ID; REDDIT_CLIENT_SECRET; REDDIT_USERNAME]
                  [] REDDIT_PASSWORD eq_refl H2 H3)).
Defined.

